(** * tiny_tamp: belief model, command interpreter and pick-place loop

    A shallow embedding of [src/tiny_tamp/structs.py] and [src/tamp.py].

    - Python floats are binary64 values: [PrimFloat.float].
    - Lists indexed or updated in place are stdpp lists ([!!], [<[i:=x]>]);
      the pybullet session is a finite store keyed by body and joint ids.
    - Methods that mutate an object or raise are computations in a small
      state-and-exception monad [M]; an exception keeps the state reached
      when it was raised, as a Python traceback does.
    - [tiny_tamp.pb_utils], [tiny_tamp.planning] and the hardware sender
      are not part of the embedded sources; what the code needs from them
      is the interface [Backend], the store operations below and the
      planner taken as a section variable. *)

From Stdlib Require Import PrimFloat ZArith.
From stdpp Require Import base option list gmap strings.

Set Warnings "-register-all,-inexact-float".

(** ** Exceptions and the state-and-exception monad *)

Inductive Exn : Type :=
| IndexError
| KeyError (key : string)
| AttributeError (attr : string)
| TypeError (msg : string)
| ValueError (msg : string)
| AssertionError
| SystemExit (code : option Z).

Inductive outcome (S A : Type) : Type :=
| Done (a : A) (s : S)
| Raised (e : Exn) (s : S).
Arguments Done {S A} a s.
Arguments Raised {S A} e s.

Definition M (S A : Type) : Type := S -> outcome S A.

Definition ret {S A} (a : A) : M S A := fun s => Done a s.

Definition bind {S A B} (c : M S A) (k : A -> M S B) : M S B :=
  fun s => match c s with
           | Done a s' => k a s'
           | Raised e s' => Raised e s'
           end.

Definition raise {S A} (e : Exn) : M S A := fun s => Raised e s.
Definition get {S} : M S S := fun s => Done s s.
Definition modify {S} (f : S -> S) : M S unit := fun s => Done tt (f s).

Notation "'let!' x ':=' c 'in' k" := (bind c (fun x => k))
  (at level 10, x pattern, c at level 100, k at level 200).
Notation "'do!' c 'in' k" := (bind c (fun _ => k))
  (at level 10, c at level 100, k at level 200).

(** [for x in xs: body(x)] *)
Fixpoint for_each {S A} (body : A -> M S unit) (xs : list A) : M S unit :=
  match xs with
  | [] => ret tt
  | x :: xs' => do! body x in for_each body xs'
  end.

(** The state an outcome ends in and the exit status of the process:
    normal completion and [SystemExit(None)] give 0, [SystemExit(n)]
    gives [n], any other uncaught exception gives 1. *)
Definition final_state {S A} (r : outcome S A) : S :=
  match r with Done _ s => s | Raised _ s => s end.

Definition exit_status {S A} (r : outcome S A) : Z :=
  match r with
  | Done _ _ => 0
  | Raised (SystemExit None) _ => 0
  | Raised (SystemExit (Some n)) _ => n
  | Raised _ _ => 1
  end%Z.

(** [l[i]] and [l[-1]] raise IndexError out of range. *)
Definition item {S A} (l : list A) (i : nat) : M S A :=
  match l !! i with Some x => ret x | None => raise IndexError end.

Definition last_item {S A} (l : list A) : M S A :=
  match last l with Some x => ret x | None => raise IndexError end.

(** A call [self.m(a1, ..., an)] of a method declared [def m(self)]:
    arguments are bound before the body runs, and [n > 0] surplus
    positional arguments raise TypeError (the message is abridged: the
    interpreter also prints the count). *)
Definition call_nullary {S A} (name : string) (surplus : nat) (body : M S A) : M S A :=
  match surplus with
  | O => body
  | _ => raise (TypeError (name +:+ "() takes 1 positional argument but more were given"))
  end.

(** ** Module constants of structs.py *)

Definition ARM_GROUP : string := "main_arm".
Definition GRIPPER_GROUP : string := "main_gripper".
Definition PANDA_TOOL_TIP : string := "panda_tool_tip".

Definition PANDA_GROUPS : list (string * list string) :=
  [ ("base", []);
    ("main_arm", ["panda_joint1"; "panda_joint2"; "panda_joint3"; "panda_joint4";
                  "panda_joint5"; "panda_joint6"; "panda_joint7"]);
    ("main_gripper", ["panda_finger_joint1"; "panda_finger_joint2"]) ].

(** The value of [PANDA_GROUPS[ARM_GROUP]]. *)
Definition ARM_JOINT_NAMES : list string :=
  ["panda_joint1"; "panda_joint2"; "panda_joint3"; "panda_joint4";
   "panda_joint5"; "panda_joint6"; "panda_joint7"].

Definition DEFAULT_JOINT_POSITIONS : list float :=
  [ -0.0806406098426434; -1.6722951504174777; 0.07069076842695393;
    -2.7449419709102822; 0.08184716251979611; 1.7516337599063168;
    0.7849295270972781 ]%float.

Definition PREGRASP_DISTANCE : float := 0.05%float.

(** [d[key]] on a dict literal. *)
Fixpoint dict_get {V} (d : list (string * V)) (key : string) : option V :=
  match d with
  | [] => None
  | (k, v) :: d' => if String.eqb k key then Some v else dict_get d' key
  end.

(** ** Geometry and robot description supplied by pb_utils *)

Record Point : Type := mkPoint { point_x : float; point_y : float; point_z : float }.
Record Euler : Type := mkEuler { roll : float; pitch : float; yaw : float }.

(** [pbu.Point(x=0., y=0., z=0.)] and [pbu.Euler(roll=0., pitch=0., yaw=0.)]. *)
Definition Point_x (x : float) : Point := mkPoint x 0 0.
Definition Point_z (z : float) : Point := mkPoint 0 0 z.
Definition unit_point : Point := mkPoint 0 0 0.
Definition unit_euler : Euler := mkEuler 0 0 0.

(** Modelled from the spec: the simulation backend interface of
    tiny_tamp.pb_utils, which is absent from the sources.  Poses are rigid
    transforms with a binary composition ([pbu.multiply] on two poses), an
    identity ([pbu.unit_pose()]) and a constructor from a point and Euler
    angles ([pbu.Pose]); [get_pose_distance] is the (position, orientation)
    error pair; the remaining fields are the robot description queries.
    [joints_from_names] resolves every name to one joint, and
    [get_custom_limits] returns one lower and one upper limit per joint. *)
Class Backend (Pose : Type) : Type := {
  unit_pose : Pose;
  multiply2 : Pose -> Pose -> Pose;
  Pose_ : Point -> Euler -> Pose;
  get_pose_distance : Pose -> Pose -> float * float;
  joints_from_names : nat -> list string -> list nat;
  link_from_name : nat -> string -> nat;
  get_custom_limits : nat -> list nat -> list float * list float;
  get_link_pose : gmap (nat * nat) float -> nat -> nat -> Pose;
  joints_from_names_length : forall body names,
    length (joints_from_names body names) = length names;
  get_custom_limits_length : forall body joints,
    length (get_custom_limits body joints).1 = length joints
    /\ length (get_custom_limits body joints).2 = length joints;
}.

Section Model.

Context {Pose : Type} {backend : Backend Pose}.

(** Modelled from the spec: [pbu.multiply] applied to several poses
    (absent from the sources) composes them from left to right. *)
Definition multiply (poses : list Pose) : Pose :=
  match poses with
  | [] => unit_pose
  | p :: ps => fold_left multiply2 ps p
  end.

(** ** The pybullet session *)

(** Modelled from the spec: the state of one simulation session (absent
    backend): the world pose of every body, the position of every joint
    keyed by (body, joint), and the next free body id. *)
Record World : Type := mkWorld {
  body_pose : gmap nat Pose;
  joint_position : gmap (nat * nat) float;
  next_body : nat;
}.

(** Modelled from the spec: [pbu.set_pose(body, pose, client)]. *)
Definition set_pose (body : nat) (pose : Pose) (w : World) : World :=
  mkWorld (<[body := pose]> (body_pose w)) (joint_position w) (next_body w).

(** Modelled from the spec: [pbu.set_joint_positions(body, joints, values,
    client)] pairs the joints with the values, which must be as many as
    the joints (AssertionError otherwise), and assigns each value to its
    joint; [assign_joints] is the assignment of the pairs. *)
Definition assign_joints (body : nat) (joints : list nat) (values : list float)
    (w : World) : World :=
  mkWorld (body_pose w)
          (fold_left (fun m jv => <[(body, jv.1) := jv.2]> m) (zip joints values)
                     (joint_position w))
          (next_body w).

Definition set_joint_positions (body : nat) (joints : list nat) (values : list float)
    (w : World) : Exn + World :=
  if Nat.eqb (length joints) (length values)
  then inr (assign_joints body joints values w)
  else inl AssertionError.

(** Modelled from the spec: [pbu.create_box(w, l, h, color, client)]
    instantiates a new body at the identity pose and returns its id. *)
Definition create_box (w : World) : nat * World :=
  (next_body w,
   mkWorld (<[next_body w := unit_pose]> (body_pose w)) (joint_position w)
           (S (next_body w))).

(** ** Belief model (structs.py, lines 51-82) *)

(** [create_object] is the factory of the object, a callable that is
    given the session and returns the id of the body it instantiated
    there; a factory is taken to return. *)
Record ObjectState : Type := mkObjectState {
  create_object : World -> nat * World;
  pose : Pose;
  category : string;
}.

Record WorldBelief : Type := mkWorldBelief {
  object_states : list ObjectState;
  robot_state : list float;
  gripper_open : bool;
}.

(** ** Attachments and commands (structs.py, lines 267-358) *)

Record Attachment : Type := mkAttachment {
  parent : nat;
  parent_link : option nat;   (* None when the caller passes None *)
  child : nat;
  parent_T_child : Pose;
}.

Record Trajectory : Type := mkTrajectory {
  traj_robot : nat;
  joints : list nat;
  path : list (list float);
  velocity_scale : float;
  time_after_contact : float;
  attachments : list Attachment;
}.

(** The four command classes, and [BaseCommand] for an instance of the
    base class [Command] itself, which is none of the four. *)
Inductive Command : Type :=
| CTrajectory (t : Trajectory)
| ActivateGrasp (robot gripper_link body : nat)
| DeactivateGrasp (robot gripper_link body : nat)
| Sequence (commands : list Command) (name : option string)
| BaseCommand.

(** [Command.__repr__] as used by ["{}".format(command)] on a base-class
    instance: the class name. *)
Definition repr_BaseCommand : string := "Command".

(** ** SimulatorInstance (structs.py, lines 85-264) *)

(** Commands received by the hardware sender, in order.  The [sender]
    field of an instance is the log of a bound sender; an instance with
    [real_robot] set and no sender bound (the default [sender=None]) is
    outside the model. *)
Inductive HwCommand : Type :=
| HwOpenGripper
| HwCloseGripper
| HwCommandArm (positions : list float)
| HwExecutePositionPath (named_positions : list (list (string * float))).

Record SimulatorInstance : Type := mkSim {
  client : World;
  robot : nat;
  table : nat;
  movable_objects : list nat;
  components : gmap string nat;
  real_robot : bool;
  sender : list HwCommand;
}.

Definition with_client (f : World -> World) (self : SimulatorInstance) : SimulatorInstance :=
  mkSim (f (client self)) (robot self) (table self) (movable_objects self)
        (components self) (real_robot self) (sender self).

(** A backend call on the session of the instance, which may raise. *)
Definition on_client (f : World -> Exn + World) : M SimulatorInstance unit :=
  fun self =>
    match f (client self) with
    | inr w => Done tt (with_client (fun _ => w) self)
    | inl e => Raised e self
    end.

Definition send (c : HwCommand) (self : SimulatorInstance) : SimulatorInstance :=
  mkSim (client self) (robot self) (table self) (movable_objects self)
        (components self) (real_robot self) (sender self ++ [c]).

(** [tool_link]: the property body evaluates [pbu.link_from_name] and has
    no return statement. *)
Definition tool_link (self : SimulatorInstance) : option nat :=
  let _ := link_from_name (robot self) PANDA_TOOL_TIP in None.

Definition get_group_joints (group : string) : M SimulatorInstance (list nat) :=
  let! self := get in
  match dict_get PANDA_GROUPS group with
  | Some names => ret (joints_from_names (robot self) names)
  | None => raise (KeyError group)
  end.

Definition get_group_limits (group : string)
    : M SimulatorInstance (list float * list float) :=
  let! self := get in
  let! js := get_group_joints group in
  ret (get_custom_limits (robot self) js).

Definition set_group_positions (group : string) (positions : list float)
    : M SimulatorInstance unit :=
  let! self := get in
  let! js := get_group_joints group in
  do! on_client (set_joint_positions (robot self) js positions) in
  if real_robot self then modify (send (HwCommandArm positions)) else ret tt.

Definition open_gripper : M SimulatorInstance unit :=
  let! self := get in
  let! limits := get_group_limits GRIPPER_GROUP in
  do! set_group_positions GRIPPER_GROUP limits.2 in
  if real_robot self then modify (send HwOpenGripper) else ret tt.

Definition close_gripper : M SimulatorInstance unit :=
  let! self := get in
  let! limits := get_group_limits GRIPPER_GROUP in
  do! set_group_positions GRIPPER_GROUP limits.1 in
  if real_robot self then modify (send HwCloseGripper) else ret tt.

(** [command_trajectory(trajectory, dt)]; the pacing [time.sleep(dt)] has
    no effect on the state and is left out. *)
Definition named_position (positions : list float) : list (string * float) :=
  zip (default [] (dict_get PANDA_GROUPS ARM_GROUP)) positions.

Definition command_trajectory (trajectory : list (list float)) : M SimulatorInstance unit :=
  let! self := get in
  do! for_each (set_group_positions ARM_GROUP) trajectory in
  if real_robot self
  then modify (send (HwExecutePositionPath (map named_position trajectory)))
  else ret tt.

(** [execute_sequence(sequence)]: [dispatch] is the body of the loop. *)
Fixpoint dispatch (command : Command) : M SimulatorInstance unit :=
  match command with
  | CTrajectory t => command_trajectory (path t)
  | ActivateGrasp _ _ _ => call_nullary "close_gripper" 1 close_gripper
  | DeactivateGrasp _ _ _ => call_nullary "open_gripper" 1 open_gripper
  | Sequence commands _ =>
      (fix loop (cs : list Command) : M SimulatorInstance unit :=
         match cs with
         | [] => ret tt
         | c :: cs' => do! dispatch c in loop cs'
         end) commands
  | BaseCommand => raise (ValueError ("Unknown command type: " +:+ repr_BaseCommand))
  end.

Definition execute_sequence (sequence : list Command) : M SimulatorInstance unit :=
  for_each dispatch sequence.

(** [set_belief(belief)] (lines 138-149). *)
Definition arm_group : string := "main_arm".
Definition gripper_group : string := "main_gripper".

Definition place_created (obj_state : ObjectState) : M SimulatorInstance unit :=
  let! self := get in
  let created := create_object obj_state (client self) in
  modify (with_client (fun _ => set_pose created.1 (pose obj_state) created.2)).

Definition set_belief (belief : WorldBelief) : M SimulatorInstance unit :=
  let! self := get in
  if negb (Nat.eqb (length (object_states belief)) (length (movable_objects self)))
  then raise AssertionError
  else
    do! for_each place_created (object_states belief) in
    do! set_group_positions arm_group (robot_state belief) in
    if gripper_open belief then open_gripper else close_gripper.

(** ** Trajectory.reverse (structs.py, lines 284-291) *)

(** Values passed to a dataclass constructor, and the attribute dictionary
    of the instance it builds. *)
Inductive PyVal : Type :=
| VInt (n : nat)
| VInts (l : list nat)
| VPath (p : list (list float))
| VFloat (f : float)
| VAttachments (l : list Attachment).

(** Parameters of the generated [__init__], in field order, with the
    default of each optional one. *)
Definition Trajectory_params : list (string * option PyVal) :=
  [ ("robot", None); ("joints", None); ("path", None);
    ("velocity_scale", Some (VFloat 1.0%float));
    ("time_after_contact", Some (VFloat infinity));
    ("attachments", Some (VAttachments [])) ].

(** Positional arguments fill the parameters from the left. *)
Fixpoint bind_positional (params : list (string * option PyVal)) (args : list PyVal)
    : Exn + list (string * option PyVal) :=
  match args, params with
  | [], _ => inr params
  | _ :: _, [] => inl (TypeError "__init__() takes fewer positional arguments")
  | a :: args', (name, _) :: params' =>
      match bind_positional params' args' with
      | inr bound => inr ((name, Some a) :: bound)
      | inl e => inl e
      end
  end.

(** Keyword arguments then fill their parameter by name; a keyword naming
    a parameter already filled positionally, or no parameter, is an error.
    [npos] parameters were filled positionally. *)
Fixpoint bind_keyword (npos : nat) (params : list (string * option PyVal))
    (kw : string * PyVal) : Exn + list (string * option PyVal) :=
  match params with
  | [] => inl (TypeError ("__init__() got an unexpected keyword argument '" +:+ kw.1 +:+ "'"))
  | (name, v) :: params' =>
      if String.eqb name kw.1
      then match npos with
           | O => inr ((name, Some kw.2) :: params')
           | S _ => inl (TypeError ("__init__() got multiple values for argument '" +:+ name +:+ "'"))
           end
      else match bind_keyword (pred npos) params' kw with
           | inr bound => inr ((name, v) :: bound)
           | inl e => inl e
           end
  end.

Fixpoint bind_keywords (npos : nat) (params : list (string * option PyVal))
    (kwargs : list (string * PyVal)) : Exn + list (string * option PyVal) :=
  match kwargs with
  | [] => inr params
  | kw :: kwargs' =>
      match bind_keyword npos params kw with
      | inr params' => bind_keywords npos params' kwargs'
      | inl e => inl e
      end
  end.

(** Every parameter must end up with a value. *)
Fixpoint check_bound (params : list (string * option PyVal))
    : Exn + list (string * PyVal) :=
  match params with
  | [] => inr []
  | (name, None) :: _ =>
      inl (TypeError ("__init__() missing 1 required positional argument: '" +:+ name +:+ "'"))
  | (name, Some v) :: params' =>
      match check_bound params' with
      | inr fields => inr ((name, v) :: fields)
      | inl e => inl e
      end
  end.

Definition dataclass_init (params : list (string * option PyVal))
    (args : list PyVal) (kwargs : list (string * PyVal)) : Exn + list (string * PyVal) :=
  match bind_positional (map (fun p => (p.1, None)) params) args with
  | inl e => inl e
  | inr filled =>
      match bind_keywords (length args) filled kwargs with
      | inl e => inl e
      | inr filled' =>
          check_bound (zip_with (fun p f => (p.1, from_option Some p.2 f.2)) params filled')
      end
  end.

(** [self.__class__(self.joints, self.path[::-1], velocity_scale=...,
    time_after_contact=..., attachments=...)]: two positional arguments. *)
Definition Trajectory_reverse (self : Trajectory) : Exn + list (string * PyVal) :=
  dataclass_init Trajectory_params
    [VInts (joints self); VPath (rev (path self))]
    [ ("velocity_scale", VFloat (velocity_scale self));
      ("time_after_contact", VFloat (time_after_contact self));
      ("attachments", VAttachments (attachments self)) ].

(** ** Grasp (structs.py, lines 360-377) *)

Record Grasp : Type := mkGrasp {
  attachment : Attachment;
  closed_position : float;
}.

Definition get_pregrasp_pose (self : Grasp) (current_tool_pose gripper_T_tool : Pose)
    (tool_distance object_distance : float) : Pose :=
  multiply [ gripper_T_tool;
             Pose_ (Point_x tool_distance) unit_euler;
             current_tool_pose;
             Pose_ (Point_z (- object_distance)%float) unit_euler ].

(** The call with the default arguments [gripper_T_tool=pbu.unit_pose()],
    [tool_distance=PREGRASP_DISTANCE], [object_distance=PREGRASP_DISTANCE]. *)
Definition get_pregrasp_pose_default (self : Grasp) (current_tool_pose : Pose) : Pose :=
  get_pregrasp_pose self current_tool_pose unit_pose PREGRASP_DISTANCE PREGRASP_DISTANCE.

(** ** The grasp generator of tamp.py (lines 84-100) *)

Definition np_pi : float := 0x1.921fb54442d18p+1%float.

Definition gen_fn (obj : nat) : M SimulatorInstance Grasp :=
  let! sim := get in
  let! limits := get_group_limits GRIPPER_GROUP in
  let! closed0 := item limits.1 0 in
  let closed_position := (closed0 * (1 + 5e-2))%float in
  let grasp_pose :=
    multiply [ Pose_ unit_point (mkEuler 0 (- np_pi / 2.0) 0)%float;
               Pose_ (Point_z (-0.01)%float) unit_euler ] in
  ret (mkGrasp (mkAttachment (robot sim) (tool_link sim) obj grasp_pose) closed_position).

End Model.

Arguments World Pose : clear implicits.
Arguments ObjectState Pose : clear implicits.
Arguments WorldBelief Pose : clear implicits.
Arguments Attachment Pose : clear implicits.
Arguments Trajectory Pose : clear implicits.
Arguments Command Pose : clear implicits.
Arguments SimulatorInstance Pose : clear implicits.
Arguments PyVal Pose : clear implicits.
Arguments Grasp Pose : clear implicits.

(** ** The pick-place loop of tamp.py (lines 123-162) *)

Section Orchestrator.

Context {Pose : Type} {backend : Backend Pose}.

(** The planning strategy [tiny_tamp.planning.get_pick_place_plan] is
    pluggable and not part of the embedded sources.  It is called with the
    twin instance, the belief, the simulated object and the placement pose
    (the grasp sampler and the motion planner are closures over the same
    twin instance), may explore in the twin session, and returns a sub-plan
    or None together with a statistics record; it is assumed to return and
    to leave the belief alone. *)
Variable Stats : Type.
Variable json_dumps : Stats -> string.
Variable get_pick_place_plan :
  SimulatorInstance Pose -> WorldBelief Pose -> nat -> Pose ->
  (option (Command Pose) * Stats) * SimulatorInstance Pose.

(** The variables of [main] the loop reads and writes, the lines printed,
    and a record of every call of the strategy (object and placement). *)
Record MainState : Type := mkMain {
  belief : WorldBelief Pose;
  plan_components : list (Command Pose);
  sim_instance : SimulatorInstance Pose;
  twin_sim_instance : SimulatorInstance Pose;
  stdout : list string;
  planner_calls : list (nat * Pose);
}.

Definition print (line : string) : M MainState unit :=
  modify (fun s => mkMain (belief s) (plan_components s) (sim_instance s)
                          (twin_sim_instance s) (stdout s ++ [line]) (planner_calls s)).

Definition set_belief_of (f : WorldBelief Pose -> WorldBelief Pose) : M MainState unit :=
  modify (fun s => mkMain (f (belief s)) (plan_components s) (sim_instance s)
                          (twin_sim_instance s) (stdout s) (planner_calls s)).

Definition append_plan_component (subplan : Command Pose) : M MainState unit :=
  modify (fun s => mkMain (belief s) (plan_components s ++ [subplan]) (sim_instance s)
                          (twin_sim_instance s) (stdout s) (planner_calls s)).

Definition sys_exit {A} : M MainState A := raise (SystemExit None).

(** [enumerate(l)] and the comprehension of lines 127-131. *)
Fixpoint enumerate_from {A} (n : nat) (l : list A) : list (nat * A) :=
  match l with
  | [] => []
  | x :: l' => (n, x) :: enumerate_from (S n) l'
  end.

Definition enumerate {A} (l : list A) : list (nat * A) := enumerate_from 0 l.

Definition matching_objects (cat : string) (objs : list (ObjectState Pose))
    : list (nat * ObjectState Pose) :=
  filter (fun io => category io.2 = cat) (enumerate objs).

(** [(pos_error > 1e-2) or (ori_error > 1e-2)] *)
Definition exceeds_tolerance (errors : float * float) : bool :=
  (1e-2 <? errors.1)%float || (1e-2 <? errors.2)%float.

(** [x.commands] and [x.path] exist on one command class each. *)
Definition attr_commands (c : Command Pose) : M MainState (list (Command Pose)) :=
  match c with
  | Sequence commands _ => ret commands
  | _ => raise (AttributeError "commands")
  end.

Definition attr_path (c : Command Pose) : M MainState (list (list float)) :=
  match c with
  | CTrajectory t => ret (path t)
  | _ => raise (AttributeError "path")
  end.

(** [twin_sim_instance.movable_objects[i]] and the call of lines 139-146 *)
Definition call_planner (sim_obj : nat) (placement_location : Pose)
    : M MainState (option (Command Pose) * Stats) :=
  fun s =>
    let r := get_pick_place_plan (twin_sim_instance s) (belief s) sim_obj
                                 placement_location in
    Done r.1 (mkMain (belief s) (plan_components s) (sim_instance s) r.2 (stdout s)
                     (planner_calls s ++ [(sim_obj, placement_location)])).

Definition set_object_pose (i : nat) (p : Pose) (b : WorldBelief Pose) : WorldBelief Pose :=
  mkWorldBelief
    (alter (fun o => mkObjectState (create_object o) p (category o)) i (object_states b))
    (robot_state b) (gripper_open b).

Definition set_robot_state (q : list float) (b : WorldBelief Pose) : WorldBelief Pose :=
  mkWorldBelief (object_states b) q (gripper_open b).

(** The body of the loop over [goal_belief.object_states]. *)
Definition process_goal (goal_object_state : ObjectState Pose) : M MainState unit :=
  let! s := get in
  let! m := item (matching_objects (category goal_object_state)
                                   (object_states (belief s))) 0 in
  let belief_object_index := m.1 in
  let belief_object := m.2 in
  let errors := get_pose_distance (pose belief_object) (pose goal_object_state) in
  if exceeds_tolerance errors then
    let! sim_obj := item (movable_objects (twin_sim_instance s)) belief_object_index in
    let! r := call_planner sim_obj (pose goal_object_state) in
    match r.1 with
    | None =>
        do! print "Planning failure" in
        do! print (json_dumps r.2) in
        sys_exit
    | Some subplan =>
        do! set_belief_of (set_object_pose belief_object_index (pose goal_object_state)) in
        let! cs := attr_commands subplan in
        let! c1 := last_item cs in
        let! cs1 := attr_commands c1 in
        let! c2 := last_item cs1 in
        let! p := attr_path c2 in
        let! q := last_item p in
        do! set_belief_of (set_robot_state q) in
        append_plan_component subplan
    end
  else ret tt.

Definition main_loop (goal_object_states : list (ObjectState Pose)) : M MainState unit :=
  for_each process_goal goal_object_states.

(** Lines 123-162: the loop, then [Sequence(plan_components,
    "rearrangement_plan")] handed to [sim_instance.execute_command], an
    attribute SimulatorInstance does not define. *)
Definition rearrange (goal_belief : WorldBelief Pose) : M MainState unit :=
  do! main_loop (object_states goal_belief) in
  let! s := get in
  let plan_sequence := Sequence (plan_components s) (Some "rearrangement_plan") in
  let _ := plan_sequence in
  raise (AttributeError "execute_command").

End Orchestrator.

Arguments MainState Pose : clear implicits.

(** ** The flattened leaf list of a command tree *)

Section Leaves.

Context {Pose : Type}.

Fixpoint leaves_of (c : Command Pose) : list (Command Pose) :=
  match c with
  | Sequence commands _ =>
      (fix go (cs : list (Command Pose)) : list (Command Pose) :=
         match cs with
         | [] => []
         | c' :: cs' => leaves_of c' ++ go cs'
         end) commands
  | _ => [c]
  end.

Definition leaves (cs : list (Command Pose)) : list (Command Pose) :=
  flat_map leaves_of cs.

Definition is_sequence (c : Command Pose) : bool :=
  match c with Sequence _ _ => true | _ => false end.

Definition is_trajectory (c : Command Pose) : bool :=
  match c with CTrajectory _ => true | _ => false end.

End Leaves.

(** ** The attachment invariant of the specification

    An attachment is satisfied in a session when the child's world pose is
    the world pose of the parent link composed with [parent_T_child]. *)
Definition attachment_satisfied {Pose : Type} {backend : Backend Pose}
    (a : Attachment Pose) (w : World Pose) : Prop :=
  exists link,
    parent_link a = Some link
    /\ body_pose w !! child a
       = Some (multiply2 (get_link_pose (joint_position w) (parent a) link)
                         (parent_T_child a)).

(** ** A symbolic backend for running the model on concrete inputs

    Poses are words of elementary transforms under concatenation (an
    elementary transform with zero offset and zero angles is the empty
    word), the
    robot is a single slider whose tool moves along x with its first arm
    joint, and the gripper limits are 0 (closed) and 0.04 (open). *)

Definition SymPose : Type := list (Point * Euler).

Definition is_zero (x : float) : bool := (x =? 0)%float.

Definition sym_Pose (p : Point) (e : Euler) : SymPose :=
  if is_zero (point_x p) && is_zero (point_y p) && is_zero (point_z p)
     && is_zero (roll e) && is_zero (pitch e) && is_zero (yaw e)
  then [] else [(p, e)].

Definition sym_x (p : SymPose) : float :=
  fold_left (fun acc pe => (acc + point_x pe.1)%float) p 0%float.

Definition sym_joint (name : string) : nat :=
  default 0 (dict_get
    [ ("panda_joint1", 0); ("panda_joint2", 1); ("panda_joint3", 2);
      ("panda_joint4", 3); ("panda_joint5", 4); ("panda_joint6", 5);
      ("panda_joint7", 6); ("panda_finger_joint1", 9);
      ("panda_finger_joint2", 10) ] name).

#[export] Instance sym_backend : Backend SymPose := {|
  unit_pose := [];
  multiply2 := app;
  Pose_ := sym_Pose;
  get_pose_distance := fun p q => (abs (sym_x p - sym_x q), 0)%float;
  joints_from_names := fun _ names => map sym_joint names;
  link_from_name := fun _ _ => 11;
  get_custom_limits := fun _ js => (map (fun _ => 0%float) js, map (fun _ => 0.04%float) js);
  get_link_pose := fun q robot _ => sym_Pose (Point_x (default 0%float (q !! (robot, 0)))) unit_euler;
  joints_from_names_length := fun _ names => length_map sym_joint names;
  get_custom_limits_length := fun _ js =>
    conj (length_map (fun _ => 0%float) js) (length_map (fun _ => 0.04%float) js);
|}.

(** A session with the robot (body 0), the table (body 1) and one box
    (body 2) at the identity pose, all joints unset. *)
Definition sym_world : World SymPose :=
  mkWorld (<[2 := []]> (<[1 := []]> (<[0 := []]> ∅))) ∅ 3.

Definition sym_sim : SimulatorInstance SymPose :=
  mkSim sym_world 0 1 [2] ∅ false [].

Definition sym_real_sim : SimulatorInstance SymPose :=
  mkSim sym_world 0 1 [2] ∅ true [].

Definition sym_trajectory (q : list (list float)) (a : list (Attachment SymPose))
    : Trajectory SymPose :=
  mkTrajectory 0 [0; 1; 2; 3; 4; 5; 6] q 1.0%float infinity a.

(** The attached box of the attachment scenario: the box (body 2) held at
    the tool link (link 11) with the identity relative transform. *)
Definition sym_attachment : Attachment SymPose := mkAttachment 0 (Some 11) 2 [].

(** A belief with one red box at x = 0.3 whose factory is [create_box],
    the arm at its default joint positions. *)
Definition sym_red_box (x : float) : ObjectState SymPose :=
  mkObjectState create_box (sym_Pose (Point_x x) unit_euler) "red_box".

Definition sym_belief : WorldBelief SymPose :=
  mkWorldBelief [sym_red_box 0.3] DEFAULT_JOINT_POSITIONS true.

(** Three planning strategies for the symbolic backend.  Statistics are
    kept as the text [json.dumps] prints.  [sym_planner] returns a pick
    sequence followed by a place sequence that ends at the arm
    configuration [sym_final_conf]; [sym_flat_planner] returns a sequence of
    bare trajectories; [sym_failing_planner] finds no plan. *)
Definition sym_final_conf : list float := [0.4; 0; 0; 0; 0; 0; 0]%float.

Definition sym_pick_place (obj : nat) : Command SymPose :=
  Sequence
    [ Sequence [ CTrajectory (sym_trajectory [[0.3; 0; 0; 0; 0; 0; 0]%float] []);
                 ActivateGrasp 0 11 obj;
                 CTrajectory (sym_trajectory [DEFAULT_JOINT_POSITIONS] []) ]
               (Some "pick");
      Sequence [ CTrajectory (sym_trajectory [sym_final_conf] [sym_attachment]);
                 DeactivateGrasp 0 11 obj;
                 CTrajectory (sym_trajectory [DEFAULT_JOINT_POSITIONS; sym_final_conf] []) ]
               (Some "place") ]
    None.

Definition sym_planner (twin : SimulatorInstance SymPose) (b : WorldBelief SymPose)
    (obj : nat) (placement : SymPose)
    : (option (Command SymPose) * string) * SimulatorInstance SymPose :=
  ((Some (sym_pick_place obj), "{}"), twin).

Definition sym_flat_planner (twin : SimulatorInstance SymPose) (b : WorldBelief SymPose)
    (obj : nat) (placement : SymPose)
    : (option (Command SymPose) * string) * SimulatorInstance SymPose :=
  ((Some (Sequence [CTrajectory (sym_trajectory [sym_final_conf] [])] None), "{}"), twin).

Definition sym_failing_planner (twin : SimulatorInstance SymPose) (b : WorldBelief SymPose)
    (obj : nat) (placement : SymPose)
    : (option (Command SymPose) * string) * SimulatorInstance SymPose :=
  ((None, "{}"), twin).

(** The goal shifts the red box to x = 0.4; [sym_main] is the state of
    [main] when the loop starts. *)
Definition sym_goal : WorldBelief SymPose :=
  mkWorldBelief [sym_red_box 0.4] DEFAULT_JOINT_POSITIONS true.

Definition sym_main : MainState SymPose :=
  mkMain sym_belief [] sym_sim sym_sim [] [].

(** ** A single-precision backend for the translations *)

(** Modelled from the spec: a second implementation of the backend
    interface of the absent tiny_tamp.pb_utils, in which a composition is
    carried out in single precision the way Bullet's [multiplyTransforms]
    does it: the two poses are narrowed to single precision, composed, and
    the result is widened again.  [round32] rounds a double to 24
    significant bits (Veltkamp's splitting with 2^29 + 1).  The backend
    carries the pure translations only: [Some p] is the translation by [p]
    and [None] stands for every pose with a rotation, which this backend
    does not evaluate. *)
Definition round32 (x : float) : float :=
  let g := (x * 536870913)%float in
  let d := (x - g)%float in
  (g + d)%float.

Definition round32_point (p : Point) : Point :=
  mkPoint (round32 (point_x p)) (round32 (point_y p)) (round32 (point_z p)).

Definition F32Pose : Type := option Point.

Definition f32_Pose (p : Point) (e : Euler) : F32Pose :=
  if is_zero (roll e) && is_zero (pitch e) && is_zero (yaw e) then Some p else None.

Definition f32_multiply (a b : F32Pose) : F32Pose :=
  match a, b with
  | Some p, Some q =>
      let p' := round32_point p in
      let q' := round32_point q in
      Some (mkPoint (round32 (point_x p' + point_x q'))
                    (round32 (point_y p' + point_y q'))
                    (round32 (point_z p' + point_z q')))
  | _, _ => None
  end.

Definition f32_distance (a b : F32Pose) : float * float :=
  match a, b with
  | Some p, Some q =>
      let dx := (point_x p - point_x q)%float in
      let dy := (point_y p - point_y q)%float in
      let dz := (point_z p - point_z q)%float in
      (sqrt (dx * dx + dy * dy + dz * dz), 0)%float
  | _, _ => (infinity, infinity)
  end.

Definition f32_backend : Backend F32Pose := {|
  unit_pose := Some (mkPoint 0 0 0);
  multiply2 := f32_multiply;
  Pose_ := f32_Pose;
  get_pose_distance := f32_distance;
  joints_from_names := fun _ names => map sym_joint names;
  link_from_name := fun _ _ => 11;
  get_custom_limits := fun _ js => (map (fun _ => 0%float) js, map (fun _ => 0.04%float) js);
  get_link_pose := fun q robot _ => Some (Point_x (default 0%float (q !! (robot, 0))));
  joints_from_names_length := fun _ names => length_map sym_joint names;
  get_custom_limits_length := fun _ js =>
    conj (length_map (fun _ => 0%float) js) (length_map (fun _ => 0.04%float) js);
|}.

(** ** The remaining methods of SimulatorInstance, Conf, and the scenario
    functions of tamp.py *)

Section MoreModel.

Context {Pose : Type} {backend : Backend Pose}.

(** Kinematic queries of pb_utils used by the component methods; they are
    not part of the embedded sources and are taken as they come.
    [safe_zip] may refuse its arguments. *)
Variable get_link_parent : nat -> nat -> nat.
Variable get_link_subtree : nat -> nat -> list nat.
Variable get_movable_joints : nat -> list nat.
Variable get_movable_joint_descendants : nat -> nat -> list nat.
Variable safe_zip : list nat -> list nat -> Exn + list (nat * nat).

(** Modelled from the spec: [pbu.get_joint_positions(body, joints,
    client)] reads the position of every joint; a joint that was never set
    is at 0. *)
Definition get_joint_positions (body : nat) (joints : list nat) (w : World Pose)
    : list float :=
  map (fun j => default 0%float (joint_position w !! (body, j))) joints.

(** Modelled from the spec: [pbu.clone_body(body, links, visual, collision,
    client)] instantiates a detached clone of a kinematic subtree as a new
    body, at the pose of the body it clones, and returns its id. *)
Definition clone_body (body : nat) (links : list nat) (w : World Pose) : nat * World Pose :=
  (next_body w,
   mkWorld (match body_pose w !! body with
            | Some p => <[next_body w := p]> (body_pose w)
            | None => body_pose w
            end)
           (joint_position w) (S (next_body w))).

(** Modelled from the spec: [pbu.load_pybullet(urdf, fixed_base, client)]
    instantiates the robot as a new body at the identity pose and returns
    its id. *)
Definition load_pybullet (w : World Pose) : nat * World Pose :=
  (next_body w,
   mkWorld (<[next_body w := unit_pose]> (body_pose w)) (joint_position w)
           (S (next_body w))).

(** [get_group_positions(group)] (lines 224-227). *)
Definition get_group_positions (group : string) : M (SimulatorInstance Pose) (list float) :=
  let! self := get in
  let! js := get_group_joints group in
  ret (get_joint_positions (robot self) js (client self)).

(** [get_group_parent], [get_group_subtree] (lines 151-159). *)
Definition get_group_parent (group : string) : M (SimulatorInstance Pose) nat :=
  let! self := get in
  let! js := get_group_joints group in
  let! j0 := item js 0 in
  ret (get_link_parent (robot self) j0).

Definition get_group_subtree (group : string) : M (SimulatorInstance Pose) (list nat) :=
  let! self := get in
  let! parent_link := get_group_parent group in
  ret (get_link_subtree (robot self) parent_link).

Definition set_component (group : string) (component : nat) (w : World Pose)
    (self : SimulatorInstance Pose) : SimulatorInstance Pose :=
  mkSim w (robot self) (table self) (movable_objects self)
        (<[group := component]> (components self)) (real_robot self) (sender self).

(** [get_component(group, visual)] (lines 177-189); [pbu.set_all_color]
    changes no pose and no joint and is left out. *)
Definition get_component (group : string) (visual : bool)
    : M (SimulatorInstance Pose) nat :=
  let! self := get in
  do! (match components self !! group with
       | None =>
           let! links := get_group_subtree group in
           let! self := get in
           let cloned := clone_body (robot self) links (client self) in
           modify (set_component group cloned.1 cloned.2)
       | Some _ => ret tt
       end) in
  let! self := get in
  match components self !! group with
  | Some component => ret component
  | None => raise (KeyError group)
  end.

(** [OrderedDict(pairs)]: a later pair replaces an earlier one with the
    same key; [mapping.get(key)] is None for a missing key. *)
Definition dict_of_pairs (pairs : list (nat * nat)) : gmap nat nat :=
  list_to_map (reverse pairs).

(** [get_component_mapping(group)] (lines 161-171). *)
Definition get_component_mapping (group : string)
    : M (SimulatorInstance Pose) (gmap nat nat) :=
  let! self := get in
  match components self !! group with
  | None => raise AssertionError
  | Some component =>
      let component_joints := get_movable_joints component in
      let! parent_link := get_group_parent group in
      let body_joints := get_movable_joint_descendants (robot self) parent_link in
      match safe_zip body_joints component_joints with
      | inr pairs => ret (dict_of_pairs pairs)
      | inl e => raise e
      end
  end.

(** [get_component_joints(group)] (lines 173-175). *)
Definition get_component_joints (group : string)
    : M (SimulatorInstance Pose) (list (option nat)) :=
  let! mapping := get_component_mapping group in
  let! js := get_group_joints group in
  ret (map (fun j => mapping !! j) js).

(** [Conf] and [Conf.assign(sim)] (lines 334-346). *)
Record Conf : Type := mkConf {
  conf_robot : nat;
  conf_joints : list nat;
  positions : list float;
}.

Definition Conf_assign (self : Conf) : M (SimulatorInstance Pose) unit :=
  let! sim := get in
  on_client (set_joint_positions (robot sim) (conf_joints self) (positions self)).

(** [from_belief(belief, gui)] (lines 101-136): a new session, in which
    the robot, the table and then one body per object state are created;
    the result is the instance returned. *)
Definition TABLE_POSE : Pose :=
  Pose_ (mkPoint 0.45 0 (- (0.03 / 2.0)))%float unit_euler.

Definition BulletClient : World Pose := mkWorld ∅ ∅ 0.

Definition add_object (acc : list nat * World Pose) (obj_state : ObjectState Pose)
    : list nat * World Pose :=
  let created := create_object obj_state acc.2 in
  (acc.1 ++ [created.1], set_pose created.1 (pose obj_state) created.2).

Definition from_belief (belief : WorldBelief Pose) : Exn + SimulatorInstance Pose :=
  let robot_body := load_pybullet BulletClient in
  let table := create_box robot_body.2 in
  let placed := fold_left add_object (object_states belief)
                          ([], set_pose table.1 TABLE_POSE table.2) in
  let instance := mkSim placed.2 robot_body.1 table.1 placed.1 ∅ false [] in
  match (do! (if gripper_open belief then open_gripper else close_gripper) in
         set_group_positions arm_group (robot_state belief)) instance with
  | Done _ instance' => inr instance'
  | Raised e _ => inl e
  end.

(** ** [dummy_perception] and [dummy_get_goal] (tamp.py, lines 46-81) *)

Definition box_size : float := 0.05%float.

Definition dummy_perception : WorldBelief Pose :=
  mkWorldBelief
    [ mkObjectState create_box
        (multiply [Pose_ (mkPoint 0 0.1 box_size)%float unit_euler; TABLE_POSE]) "red_box";
      mkObjectState create_box
        (multiply [Pose_ (mkPoint 0 (-0.1) box_size)%float unit_euler; TABLE_POSE]) "blue_box" ]
    DEFAULT_JOINT_POSITIONS true.

(** [b.object_states[i].pose = pbu.multiply(pbu.Pose(pbu.Point(x=dx)),
    b.object_states[i].pose)] on the copy made by [copy.deepcopy]; the
    object states of the belief are taken to be distinct objects. *)
Definition shift_object (i : nat) (dx : float) (b : WorldBelief Pose)
    : Exn + WorldBelief Pose :=
  match object_states b !! i with
  | Some o => inr (set_object_pose i (multiply [Pose_ (Point_x dx) unit_euler; pose o]) b)
  | None => inl IndexError
  end.

Definition dummy_get_goal (belief : WorldBelief Pose) : Exn + WorldBelief Pose :=
  match shift_object 0 0.1 belief with
  | inr new_belief => shift_object 1 (-0.1) new_belief
  | inl e => inl e
  end.

End MoreModel.

(** ** [main] (tamp.py, lines 103-162) *)

Section Main.

Context {Pose : Type} {backend : Backend Pose}.

Variable Stats : Type.
Variable json_dumps : Stats -> string.
Variable get_pick_place_plan :
  SimulatorInstance Pose -> WorldBelief Pose -> nat -> Pose ->
  (option (Command Pose) * Stats) * SimulatorInstance Pose.

(** The run from the parsed flags on: perception, goal, the two instances
    and the loop.  An exception raised before the loop starts has no loop
    state to report; [pbu.wait_if_gui] and the construction of the motion
    planner leave the state alone. *)
Definition main (vis_belief vis_sim : bool) : Exn + outcome (MainState Pose) unit :=
  let belief := dummy_perception in
  match dummy_get_goal belief with
  | inl e => inl e
  | inr goal_belief =>
      if vis_belief && vis_sim then inl AssertionError
      else
        match from_belief belief with
        | inl e => inl e
        | inr sim_instance =>
            match from_belief belief with
            | inl e => inl e
            | inr twin_sim_instance =>
                inr (rearrange Stats json_dumps get_pick_place_plan goal_belief
                       (mkMain belief [] sim_instance twin_sim_instance [] []))
            end
        end
  end.

End Main.

(** Kinematic queries, a hardware-free twin that tracks nothing and the
    shifted goal of the shipped scenario, for runs on the symbolic
    backend: every joint hangs off the link of the same number, a subtree
    is its root link, a component has the joints 0 and 1. *)
Definition sym_link_parent (body joint : nat) : nat := joint.
Definition sym_link_subtree (body link : nat) : list nat := [link].
Definition sym_movable_joints (body : nat) : list nat := [0; 1].
Definition sym_joint_descendants (body link : nat) : list nat := [link; S link].
Definition sym_safe_zip (l k : list nat) : Exn + list (nat * nat) :=
  if Nat.eqb (length l) (length k) then inr (zip l k) else inl AssertionError.

Definition sym_empty_sim : SimulatorInstance SymPose :=
  mkSim sym_world 0 1 [] ∅ false [].

Definition sym_untracked_main : MainState SymPose :=
  mkMain sym_belief [] sym_sim sym_empty_sim [] [].

Definition sym_dummy_goal : WorldBelief SymPose :=
  mkWorldBelief
    [ mkObjectState create_box
        (multiply2 (Pose_ (Point_x 0.1) unit_euler)
                   (multiply [Pose_ (mkPoint 0 0.1 box_size)%float unit_euler; TABLE_POSE]))
        "red_box";
      mkObjectState create_box
        (multiply2 (Pose_ (Point_x (-0.1)) unit_euler)
                   (multiply [Pose_ (mkPoint 0 (-0.1) box_size)%float unit_euler; TABLE_POSE]))
        "blue_box" ]
    DEFAULT_JOINT_POSITIONS true.

Definition sym_dummy_main : MainState SymPose :=
  mkMain dummy_perception [] sym_sim sym_sim [] [].

(** * Properties *)

(** ** The monad and the loop combinator *)

Section MonadFacts.

Context {S : Type}.

Lemma bind_ret_unit (c : M S unit) (s : S) : bind c (fun _ => ret tt) s = c s.
Proof. unfold bind, ret. by destruct (c s) as [[] ?|? ?]. Qed.

Lemma bind_ext {A B} (c : M S A) (k1 k2 : A -> M S B) (s : S) :
  (forall a s', k1 a s' = k2 a s') -> bind c k1 s = bind c k2 s.
Proof. intros Hk. unfold bind. destruct (c s); auto. Qed.

Lemma for_each_app {A} (f : A -> M S unit) (l1 l2 : list A) (s : S) :
  for_each f (l1 ++ l2) s = bind (for_each f l1) (fun _ => for_each f l2) s.
Proof.
  revert s. induction l1 as [|x l1 IH]; intros s; simpl; [done|].
  unfold bind in *. destruct (f x s) as [[] s'|e s']; [|done].
  apply IH.
Qed.

Lemma for_each_done_app {A} (f : A -> M S unit) (l1 l2 : list A) (s s1 : S) :
  for_each f l1 s = Done tt s1 -> for_each f (l1 ++ l2) s = for_each f l2 s1.
Proof. intros H. rewrite for_each_app. unfold bind. by rewrite H. Qed.

Lemma for_each_raised_app {A} (f : A -> M S unit) (l1 l2 : list A) (s s1 : S) e :
  for_each f l1 s = Raised e s1 -> for_each f (l1 ++ l2) s = Raised e s1.
Proof. intros H. rewrite for_each_app. unfold bind. by rewrite H. Qed.

End MonadFacts.

(** ** The command interpreter *)

Section Interpreter.

Context {Pose : Type} {backend : Backend Pose}.

Lemma Command_nested_ind (P : Command Pose -> Prop) :
  (forall t, P (CTrajectory t)) ->
  (forall r l b, P (ActivateGrasp r l b)) ->
  (forall r l b, P (DeactivateGrasp r l b)) ->
  (forall cs name, Forall P cs -> P (Sequence cs name)) ->
  P BaseCommand ->
  forall c, P c.
Proof.
  intros HT HA HD HS HB. fix IH 1.
  intros [t|r l b|r l b|cs name|];
    [apply HT|apply HA|apply HD| |apply HB].
  apply HS. induction cs as [|c cs IHcs]; constructor; [apply IH|apply IHcs].
Qed.

Lemma dispatch_Sequence (cs : list (Command Pose)) name (s : SimulatorInstance Pose) :
  dispatch (Sequence cs name) s = execute_sequence cs s.
Proof.
  unfold execute_sequence. simpl. revert s.
  induction cs as [|c cs IH]; intros s; [done|].
  simpl. apply bind_ext. intros _ s'. apply IH.
Qed.

Lemma leaves_of_Sequence (cs : list (Command Pose)) name :
  leaves_of (Sequence cs name) = leaves cs.
Proof.
  unfold leaves. simpl. induction cs as [|c cs IH]; [done|]. simpl. by rewrite IH.
Qed.

Lemma dispatch_leaves_of (c : Command Pose) :
  forall s, dispatch c s = execute_sequence (leaves_of c) s.
Proof.
  induction c as [t|r l b|r l b|cs name IH|] using Command_nested_ind; intros s;
    try (unfold execute_sequence; simpl leaves_of; simpl for_each;
         by rewrite bind_ret_unit).
  rewrite dispatch_Sequence, leaves_of_Sequence. revert s.
  induction IH as [|c cs Hc _ IHcs]; intros s; [done|].
  unfold execute_sequence, leaves in *. simpl flat_map. rewrite for_each_app.
  simpl for_each. unfold bind. rewrite Hc.
  destruct (execute_sequence (leaves_of c) s) as [[] s'|e s'] eqn:E;
    unfold execute_sequence in E; rewrite E; [apply IHcs|done].
Qed.

Lemma execute_sequence_leaves (cs : list (Command Pose)) (s : SimulatorInstance Pose) :
  execute_sequence cs s = execute_sequence (leaves cs) s.
Proof.
  rewrite <- (dispatch_Sequence cs None), <- (leaves_of_Sequence cs None).
  apply dispatch_leaves_of.
Qed.

Lemma leaves_of_no_sequence (c : Command Pose) :
  Forall (fun l => is_sequence l = false) (leaves_of c).
Proof.
  induction c as [t|r l b|r l b|cs name IH|] using Command_nested_ind;
    try (by repeat constructor).
  rewrite leaves_of_Sequence. unfold leaves.
  induction IH as [|c cs Hc _ IHcs]; [constructor|].
  simpl. by apply Forall_app.
Qed.

Lemma leaves_no_sequence (cs : list (Command Pose)) :
  Forall (fun l => is_sequence l = false) (leaves cs).
Proof. rewrite <- (leaves_of_Sequence cs None). apply leaves_of_no_sequence. Qed.

(** C5. Executing a command tree runs exactly the list of its leaves,
    flattened from left to right, whatever the nesting: the outcome is that
    of running the flat list, the flat list holds no Sequence, every leaf
    is dispatched in the state left by all the leaves before it, the only
    early exit is an exception raised by a leaf (which ends the run in the
    state of that leaf), and a command that is none of the four variants
    raises ValueError instead of being skipped. *)
Theorem execute_sequence_flattened (cs : list (Command Pose)) (s : SimulatorInstance Pose) :
  execute_sequence cs s = execute_sequence (leaves cs) s
  /\ Forall (fun l => is_sequence l = false) (leaves cs)
  /\ (forall l1 c l2 s1,
        leaves cs = l1 ++ c :: l2 ->
        execute_sequence l1 s = Done tt s1 ->
        execute_sequence cs s = bind (dispatch c) (fun _ => execute_sequence l2) s1)
  /\ (forall l1 l2 e s1,
        leaves cs = l1 ++ l2 ->
        execute_sequence l1 s = Raised e s1 ->
        execute_sequence cs s = Raised e s1)
  /\ (forall l1 l2 s1,
        leaves cs = l1 ++ BaseCommand :: l2 ->
        execute_sequence l1 s = Done tt s1 ->
        execute_sequence cs s = Raised (ValueError "Unknown command type: Command") s1).
Proof.
  split; [apply execute_sequence_leaves|].
  split; [apply leaves_no_sequence|].
  assert (Hstep : forall l1 c l2 s1,
             leaves cs = l1 ++ c :: l2 ->
             execute_sequence l1 s = Done tt s1 ->
             execute_sequence cs s = bind (dispatch c) (fun _ => execute_sequence l2) s1).
  { intros l1 c l2 s1 Hl H1. rewrite execute_sequence_leaves, Hl.
    unfold execute_sequence in *. by rewrite (for_each_done_app _ _ _ _ _ H1). }
  split; [exact Hstep|]. split.
  - intros l1 l2 e s1 Hl H1. rewrite execute_sequence_leaves, Hl.
    unfold execute_sequence in *. by apply for_each_raised_app.
  - intros l1 l2 s1 Hl H1. by rewrite (Hstep _ _ _ _ Hl H1).
Qed.

(** Writing a configuration to a known group: the backend takes it when
    it has one value per joint and refuses it otherwise. *)
Lemma set_group_positions_known (group : string) (names : list string) (q : list float)
    (s : SimulatorInstance Pose) :
  dict_get PANDA_GROUPS group = Some names ->
  set_group_positions group q s
  = if Nat.eqb (length names) (length q)
    then Done tt (mkSim (assign_joints (robot s) (joints_from_names (robot s) names) q
                                       (client s))
                        (robot s) (table s) (movable_objects s) (components s)
                        (real_robot s)
                        (sender s ++ (if real_robot s then [HwCommandArm q] else [])))
    else Raised AssertionError s.
Proof.
  intros Hg.
  unfold set_group_positions, get_group_joints, on_client, set_joint_positions,
    bind, get, modify, ret, raise.
  rewrite Hg. simpl. rewrite joints_from_names_length.
  destruct (Nat.eqb (length names) (length q)); [|done].
  destruct s as [c r t m co [] se]; simpl; by rewrite ?app_nil_r.
Qed.

Lemma set_arm_positions_step (p : list float) (s : SimulatorInstance Pose) :
  length p = length ARM_JOINT_NAMES ->
  set_group_positions ARM_GROUP p s
  = Done tt (mkSim (assign_joints (robot s)
                      (joints_from_names (robot s) ARM_JOINT_NAMES) p (client s))
                   (robot s) (table s) (movable_objects s) (components s)
                   (real_robot s)
                   (sender s ++ (if real_robot s then [HwCommandArm p] else []))).
Proof.
  intros Hp. rewrite (set_group_positions_known ARM_GROUP ARM_JOINT_NAMES) by done.
  by rewrite Hp, Nat.eqb_refl.
Qed.

Lemma set_arm_positions_refused (p : list float) (s : SimulatorInstance Pose) :
  length p <> length ARM_JOINT_NAMES ->
  set_group_positions ARM_GROUP p s = Raised AssertionError s.
Proof.
  intros Hp. rewrite (set_group_positions_known ARM_GROUP ARM_JOINT_NAMES) by done.
  destruct (Nat.eqb_spec (length ARM_JOINT_NAMES) (length p)); [congruence|done].
Qed.

(** A path of arm configurations is applied waypoint by waypoint; the
    first waypoint that is not a configuration of the seven arm joints
    stops the loop in the state the waypoints before it left. *)
Lemma set_arm_positions_path (q : list (list float)) (s : SimulatorInstance Pose) :
  Forall (fun p => length p = length ARM_JOINT_NAMES) q ->
  for_each (set_group_positions ARM_GROUP) q s
  = Done tt (mkSim (fold_left (fun w p => assign_joints (robot s)
                                 (joints_from_names (robot s) ARM_JOINT_NAMES) p w)
                              q (client s))
                   (robot s) (table s) (movable_objects s) (components s)
                   (real_robot s)
                   (sender s ++ (if real_robot s then map HwCommandArm q else []))).
Proof.
  intros Hq. revert s. induction Hq as [|p q Hp _ IH]; intros s.
  - simpl. unfold ret. destruct s as [c r t m co [] se]; simpl; by rewrite app_nil_r.
  - simpl for_each. unfold bind. rewrite set_arm_positions_step, IH by done. simpl.
    destruct (real_robot s); simpl; by rewrite <- ?app_assoc.
Qed.

Lemma set_arm_positions_path_refused (q1 q2 : list (list float)) (p : list float)
    (s : SimulatorInstance Pose) :
  Forall (fun p => length p = length ARM_JOINT_NAMES) q1 ->
  length p <> length ARM_JOINT_NAMES ->
  for_each (set_group_positions ARM_GROUP) (q1 ++ p :: q2) s
  = Raised AssertionError
      (mkSim (fold_left (fun w p => assign_joints (robot s)
                           (joints_from_names (robot s) ARM_JOINT_NAMES) p w)
                        q1 (client s))
             (robot s) (table s) (movable_objects s) (components s)
             (real_robot s)
             (sender s ++ (if real_robot s then map HwCommandArm q1 else []))).
Proof.
  intros Hq1 Hp.
  rewrite (for_each_done_app _ _ _ _ _ (set_arm_positions_path q1 s Hq1)).
  simpl for_each. unfold bind. by rewrite set_arm_positions_refused.
Qed.

Lemma play_keeps_body_poses (f : World Pose -> list float -> World Pose)
    (q : list (list float)) (w : World Pose) :
  (forall w p, body_pose (f w p) = body_pose w) ->
  (forall w p, next_body (f w p) = next_body w) ->
  body_pose (fold_left f q w) = body_pose w
  /\ next_body (fold_left f q w) = next_body w.
Proof.
  intros Hf Hn. revert w. induction q as [|p q IH]; intros w; [done|].
  simpl. destruct (IH (f w p)) as [-> ->]. by rewrite Hf, Hn.
Qed.

(** The split of a path at its first waypoint of the wrong length. *)
Lemma path_split (q : list (list float)) :
  Forall (fun p => length p = length ARM_JOINT_NAMES) q
  \/ exists q1 p q2,
       q = q1 ++ p :: q2
       /\ Forall (fun p => length p = length ARM_JOINT_NAMES) q1
       /\ length p <> length ARM_JOINT_NAMES.
Proof.
  induction q as [|p q [IH|(q1 & p' & q2 & -> & H1 & Hp')]].
  - by left.
  - destruct (decide (length p = length ARM_JOINT_NAMES)) as [Hp|Hp].
    + left. by constructor.
    + right. by exists [], p, q.
  - destruct (decide (length p = length ARM_JOINT_NAMES)) as [Hp|Hp].
    + right. exists (p :: q1), p', q2. split; [done|]. split; [by constructor|done].
    + right. by exists [], p, (q1 ++ p' :: q2).
Qed.

(** What [command_trajectory] does to the instance, in either outcome. *)
Lemma command_trajectory_played (q : list (list float)) (s : SimulatorInstance Pose) :
  Forall (fun p => length p = length ARM_JOINT_NAMES) q ->
  command_trajectory q s
  = Done tt (mkSim (fold_left (fun w p => assign_joints (robot s)
                                 (joints_from_names (robot s) ARM_JOINT_NAMES) p w)
                              q (client s))
                   (robot s) (table s) (movable_objects s) (components s)
                   (real_robot s)
                   (sender s ++ (if real_robot s
                                 then map HwCommandArm q
                                      ++ [HwExecutePositionPath (map named_position q)]
                                 else []))).
Proof.
  intros Hq. unfold command_trajectory, bind, get. rewrite set_arm_positions_path by done.
  destruct (real_robot s) eqn:Hr; unfold modify, ret, send; simpl;
    by rewrite ?Hr, <- ?app_assoc.
Qed.

Lemma command_trajectory_refused (q1 q2 : list (list float)) (p : list float)
    (s : SimulatorInstance Pose) :
  Forall (fun p => length p = length ARM_JOINT_NAMES) q1 ->
  length p <> length ARM_JOINT_NAMES ->
  command_trajectory (q1 ++ p :: q2) s
  = Raised AssertionError
      (mkSim (fold_left (fun w p => assign_joints (robot s)
                           (joints_from_names (robot s) ARM_JOINT_NAMES) p w)
                        q1 (client s))
             (robot s) (table s) (movable_objects s) (components s)
             (real_robot s)
             (sender s ++ (if real_robot s then map HwCommandArm q1 else []))).
Proof.
  intros Hq1 Hp. unfold command_trajectory, bind, get.
  by rewrite set_arm_positions_path_refused.
Qed.

Lemma command_trajectory_frame (q : list (list float)) (s : SimulatorInstance Pose) :
  let s' := final_state (command_trajectory q s) in
  body_pose (client s') = body_pose (client s)
  /\ next_body (client s') = next_body (client s)
  /\ robot s' = robot s /\ table s' = table s
  /\ movable_objects s' = movable_objects s
  /\ components s' = components s
  /\ real_robot s' = real_robot s.
Proof.
  destruct (path_split q) as [Hq|(q1 & p & q2 & -> & Hq1 & Hp)].
  - rewrite command_trajectory_played by done. simpl.
    destruct (play_keeps_body_poses
                (fun w p => assign_joints (robot s)
                              (joints_from_names (robot s) ARM_JOINT_NAMES) p w)
                q (client s)) as [-> ->]; done.
  - rewrite command_trajectory_refused by done. simpl.
    destruct (play_keeps_body_poses
                (fun w p => assign_joints (robot s)
                              (joints_from_names (robot s) ARM_JOINT_NAMES) p w)
                q1 (client s)) as [-> ->]; done.
Qed.

(** C4 (as the code behaves). A Trajectory command is executed by passing
    its path alone to [command_trajectory]: the outcome is the same
    whatever attachments the trajectory lists, and whether the run
    completes or raises no body pose of the session changes, so a child
    body stays where it was.  When every waypoint is a configuration of the
    seven arm joints the run completes and has set the arm joints to each
    waypoint in turn, and nothing else. *)
Theorem trajectory_ignores_attachments (t : Trajectory Pose) (s : SimulatorInstance Pose) :
  let r := execute_sequence [CTrajectory t] s in
  (forall a,
     execute_sequence
       [CTrajectory (mkTrajectory (traj_robot t) (joints t) (path t)
                                  (velocity_scale t) (time_after_contact t) a)] s
     = r)
  /\ body_pose (client (final_state r)) = body_pose (client s)
  /\ movable_objects (final_state r) = movable_objects s
  /\ (Forall (fun p => length p = length ARM_JOINT_NAMES) (path t) ->
      exists s',
        r = Done tt s'
        /\ client s'
           = fold_left (fun w p => assign_joints (robot s)
                                     (joints_from_names (robot s) ARM_JOINT_NAMES) p w)
                       (path t) (client s)
        /\ body_pose (client s') = body_pose (client s)).
Proof.
  intros r. subst r. unfold execute_sequence. simpl for_each.
  rewrite bind_ret_unit. simpl dispatch.
  destruct (command_trajectory_frame (path t) s) as (Hb & _ & _ & _ & Hm & _).
  split; [intros a; simpl; by rewrite ?bind_ret_unit|].
  split; [exact Hb|]. split; [exact Hm|].
  intros Hq. rewrite command_trajectory_played in * by done.
  eexists. split; [done|]. split; [done|exact Hb].
Qed.

(** C7 (as the code behaves). A grasp leaf never reaches the gripper: the
    interpreter calls [close_gripper(command)] and [open_gripper(command)],
    methods that take no argument, so the call raises TypeError and the
    session is left exactly as it was. *)
Theorem grasp_leaf_raises (r l b : nat) (s : SimulatorInstance Pose) :
  execute_sequence [ActivateGrasp r l b] s
  = Raised (TypeError "close_gripper() takes 1 positional argument but more were given") s
  /\ execute_sequence [DeactivateGrasp r l b] s
     = Raised (TypeError "open_gripper() takes 1 positional argument but more were given") s.
Proof. split; reflexivity. Qed.

(** What the two gripper methods do when called as declared: the gripper
    group is set to the first (closed) and to the second (open) limit
    configuration, which on hardware is also sent to the arm command
    before the gripper command. *)
Lemma gripper_result (s : SimulatorInstance Pose) :
  let js := joints_from_names (robot s) ["panda_finger_joint1"; "panda_finger_joint2"] in
  let limits := get_custom_limits (robot s) js in
  close_gripper s
  = Done tt (mkSim (assign_joints (robot s) js limits.1 (client s))
                   (robot s) (table s) (movable_objects s) (components s) (real_robot s)
                   (sender s ++ (if real_robot s
                                 then [HwCommandArm limits.1; HwCloseGripper] else [])))
  /\ open_gripper s
     = Done tt (mkSim (assign_joints (robot s) js limits.2 (client s))
                      (robot s) (table s) (movable_objects s) (components s) (real_robot s)
                      (sender s ++ (if real_robot s
                                    then [HwCommandArm limits.2; HwOpenGripper] else []))).
Proof.
  intros js limits. subst limits js.
  destruct (get_custom_limits_length (robot s)
              (joints_from_names (robot s) ["panda_finger_joint1"; "panda_finger_joint2"]))
    as [H1 H2].
  unfold close_gripper, open_gripper, get_group_limits, set_group_positions,
    get_group_joints, on_client, set_joint_positions, bind, get, modify, ret, send.
  simpl. rewrite H1, H2, Nat.eqb_refl.
  destruct s as [c r t m co [] se]; simpl; rewrite <- ?app_assoc, ?app_nil_r; done.
Qed.

(** C6 (as the code behaves). [reverse] hands the constructor two
    positional arguments, so they land in [robot] and [joints], the
    required [path] is left without a value and the call raises TypeError
    for every trajectory: no reversed trajectory is returned. *)
Theorem Trajectory_reverse_raises (t : Trajectory Pose) :
  Trajectory_reverse t
  = inl (TypeError "__init__() missing 1 required positional argument: 'path'").
Proof. reflexivity. Qed.

(** C10. [tool_link] is None on every instance, and every grasp the
    shipped generator builds carries that None as the parent link of its
    attachment; the generator returns a grasp as soon as the gripper has a
    first closed limit to read. *)
Theorem tool_link_is_None (sim : SimulatorInstance Pose) (obj : nat) :
  tool_link sim = None
  /\ (forall g sim', gen_fn obj sim = Done g sim' ->
        parent_link (attachment g) = None
        /\ parent (attachment g) = robot sim /\ child (attachment g) = obj)
  /\ (forall c0,
        (get_custom_limits (robot sim)
           (joints_from_names (robot sim)
              ["panda_finger_joint1"; "panda_finger_joint2"])).1 !! 0 = Some c0 ->
        exists g, gen_fn obj sim = Done g sim /\ parent_link (attachment g) = None).
Proof.
  split; [done|].
  unfold gen_fn, get_group_limits, get_group_joints, item, bind, get, ret, raise.
  simpl. split.
  - intros g sim'. destruct (_ !! 0); intros [= <- <-]; done.
  - intros c0 ->. eexists. split; done.
Qed.

End Interpreter.

(** ** Belief synchronisation and grasp geometry *)

Section Session.

Context {Pose : Type} {backend : Backend Pose}.

Lemma set_belief_rejects_mismatch (belief : WorldBelief Pose) (s : SimulatorInstance Pose) :
  length (object_states belief) <> length (movable_objects s) ->
  set_belief belief s = Raised AssertionError s.
Proof.
  intros Hlen. unfold set_belief, bind, get.
  apply Nat.eqb_neq in Hlen. by rewrite Hlen.
Qed.

(** C9 (as the code behaves). The pre-grasp pose is the left-to-right
    composition of exactly four transforms: [gripper_T_tool], the
    translation by [tool_distance] along x, the current tool pose, and the
    translation by [- object_distance] along z; it is a pure function of
    these (the grasp itself is not read and no state is involved).  On a
    backend whose composition has [unit_pose] as an exact two-sided
    identity, three identity transforms leave exactly the fourth; on a
    backend whose composition is associative the bracketing does not
    matter. *)
Theorem get_pregrasp_pose_composition (g : Grasp Pose) (current_tool_pose gripper_T_tool : Pose)
    (tool_distance object_distance : float) :
  let approach := Pose_ (mkPoint tool_distance 0 0) (mkEuler 0 0 0) in
  let retreat := Pose_ (mkPoint 0 0 (- object_distance)%float) (mkEuler 0 0 0) in
  let result := get_pregrasp_pose g current_tool_pose gripper_T_tool
                                  tool_distance object_distance in
  result = multiply2 (multiply2 (multiply2 gripper_T_tool approach) current_tool_pose) retreat
  /\ (forall g', get_pregrasp_pose g' current_tool_pose gripper_T_tool
                                   tool_distance object_distance = result)
  /\ ((forall p, multiply2 unit_pose p = p) ->
      (forall p, multiply2 p unit_pose = p) ->
      (approach = unit_pose -> current_tool_pose = unit_pose -> retreat = unit_pose ->
       result = gripper_T_tool)
      /\ (gripper_T_tool = unit_pose -> current_tool_pose = unit_pose ->
          retreat = unit_pose -> result = approach)
      /\ (gripper_T_tool = unit_pose -> approach = unit_pose -> retreat = unit_pose ->
          result = current_tool_pose)
      /\ (gripper_T_tool = unit_pose -> approach = unit_pose ->
          current_tool_pose = unit_pose -> result = retreat))
  /\ ((forall a b c, multiply2 (multiply2 a b) c = multiply2 a (multiply2 b c)) ->
      result = multiply2 gripper_T_tool
                 (multiply2 approach (multiply2 current_tool_pose retreat))).
Proof.
  intros approach retreat result.
  assert (Hres : result = multiply2 (multiply2 (multiply2 gripper_T_tool approach)
                                               current_tool_pose) retreat)
    by reflexivity.
  split; [exact Hres|]. split; [reflexivity|]. split.
  - intros Hl Hr. rewrite Hres.
    repeat split; intros H1 H2 H3; rewrite H1, H2, H3; by rewrite ?Hl, ?Hr.
  - intros Hassoc. by rewrite Hres, !Hassoc.
Qed.

End Session.

(** ** Runs on the symbolic backend *)

Lemma sym_multiply2_unit_l (p : SymPose) : multiply2 unit_pose p = p.
Proof. reflexivity. Qed.

Lemma sym_multiply2_unit_r (p : SymPose) : multiply2 p unit_pose = p.
Proof. apply app_nil_r. Qed.

(** C8 (as the code behaves). On a session tracking one box (body 2, at
    the identity pose) and a belief holding that box at x = 0.3,
    [set_belief] calls the object's factory again: a new body 3 is created
    and placed at the belief pose, while the tracked body 2 keeps its old
    pose and [movable_objects] still lists body 2 alone. *)
Theorem set_belief_creates_new_bodies :
  exists s',
    set_belief sym_belief sym_sim = Done tt s'
    /\ movable_objects s' = [2]
    /\ next_body (client sym_sim) = 3 /\ next_body (client s') = 4
    /\ body_pose (client s') !! 3 = Some (pose (sym_red_box 0.3))
    /\ body_pose (client s') !! 2 = Some []
    /\ pose (sym_red_box 0.3) <> [].
Proof.
  eexists. split; [vm_compute; reflexivity|].
  repeat split; try (vm_compute; reflexivity).
  vm_compute. discriminate.
Qed.

(** Witness for C9 on the symbolic backend, whose composition is
    concatenation of words and has the empty word as an exact identity:
    with the identity approach and retreat offsets (distances 0) and the
    tool at the identity, the pre-grasp pose is the translation given as
    [gripper_T_tool]; with everything but the approach offset at the
    identity it is that offset; and four translations come out as the word
    of the four in the order of the call. *)
Lemma get_pregrasp_pose_composition_witness :
  get_pregrasp_pose (mkGrasp sym_attachment 0) []
                    (sym_Pose (mkPoint 0.1 0 0) (mkEuler 0 0 0)) 0 0
  = sym_Pose (mkPoint 0.1 0 0) (mkEuler 0 0 0)
  /\ get_pregrasp_pose (mkGrasp sym_attachment 0) [] [] 0.05 0
     = sym_Pose (mkPoint 0.05 0 0) (mkEuler 0 0 0)
  /\ get_pregrasp_pose (mkGrasp sym_attachment 0)
                       [(mkPoint 0 3 0, mkEuler 0 0 0)] [(mkPoint 0 1 0, mkEuler 0 0 0)] 2 4
     = [ (mkPoint 0 1 0, mkEuler 0 0 0); (mkPoint 2 0 0, mkEuler 0 0 0);
         (mkPoint 0 3 0, mkEuler 0 0 0); (mkPoint 0 0 (-4), mkEuler 0 0 0) ].
Proof.
  split; [|split].
  - destruct (get_pregrasp_pose_composition (mkGrasp sym_attachment 0) []
                (sym_Pose (mkPoint 0.1 0 0) (mkEuler 0 0 0)) 0 0) as (_ & _ & H & _).
    destruct (H sym_multiply2_unit_l sym_multiply2_unit_r) as (H1 & _).
    apply H1; reflexivity.
  - destruct (get_pregrasp_pose_composition (mkGrasp sym_attachment 0) [] [] 0.05 0)
      as (_ & _ & H & _).
    destruct (H sym_multiply2_unit_l sym_multiply2_unit_r) as (_ & H2 & _).
    apply H2; reflexivity.
  - destruct (get_pregrasp_pose_composition (mkGrasp sym_attachment 0)
                [(mkPoint 0 3 0, mkEuler 0 0 0)] [(mkPoint 0 1 0, mkEuler 0 0 0)] 2 4)
      as (H & _).
    rewrite H. vm_compute. reflexivity.
Defined.

(** Counterexample for C9 on the single-precision backend: the tool, the
    gripper offset and the retreat offset are the identity (the retreat
    distance is -0.0, so that the retreat offset is the identity pose bit
    for bit) and the approach offset is the pure translation by 0.1 along
    x; the pre-grasp pose is the translation by 0.10000000149011612, not
    by 0.1. *)
Lemma pregrasp_translation_not_exact :
  let approach := @Pose_ F32Pose f32_backend (mkPoint 0.1 0 0) (mkEuler 0 0 0) in
  let retreat := @Pose_ F32Pose f32_backend (mkPoint 0 0 (- (-0))%float) (mkEuler 0 0 0) in
  let result := @get_pregrasp_pose F32Pose f32_backend
                  (mkGrasp (mkAttachment 0 None 2 (@unit_pose F32Pose f32_backend)) 0)
                  (@unit_pose F32Pose f32_backend) (@unit_pose F32Pose f32_backend)
                  0.1 (-0) in
  retreat = @unit_pose F32Pose f32_backend
  /\ approach = Some (mkPoint 0.1 0 0)
  /\ result = Some (mkPoint 0x1.99999ap-4 0 0)
  /\ result <> approach.
Proof.
  vm_compute. repeat split.
  intros H. apply (f_equal (fun o => match o with
                                     | Some p => (point_x p =? 0.1)%float
                                     | None => false
                                     end)) in H.
  vm_compute in H. discriminate.
Qed.

(** Witness for C4: a one-waypoint trajectory on the symbolic session; the
    waypoint is a configuration of the seven arm joints, so the run
    completes with the body poses of the session unchanged. *)
Lemma trajectory_ignores_attachments_witness :
  Forall (fun p => length p = length ARM_JOINT_NAMES) (path (sym_trajectory [sym_final_conf] []))
  /\ exists s',
       execute_sequence [CTrajectory (sym_trajectory [sym_final_conf] [])] sym_sim = Done tt s'
       /\ body_pose (client s') = body_pose (client sym_sim).
Proof.
  assert (Hq : Forall (fun p => length p = length ARM_JOINT_NAMES)
                      (path (sym_trajectory [sym_final_conf] []))).
  { repeat constructor. }
  split; [exact Hq|].
  destruct (trajectory_ignores_attachments (sym_trajectory [sym_final_conf] []) sym_sim)
    as (_ & _ & _ & H).
  destruct (H Hq) as (s' & Hs' & _ & Hb).
  exists s'. split; [exact Hs'|exact Hb].
Defined.

(** Counterexample for C4: the box is attached to the tool link and the
    attachment holds before the motion; after a trajectory of one
    seven-joint waypoint that lists the attachment the run has completed,
    the tool has moved to x = 0.5 and the box has not, so the attachment no
    longer holds. *)
Lemma attachment_not_followed :
  attachment_satisfied sym_attachment (client sym_sim)
  /\ exists s',
       execute_sequence
         [CTrajectory (sym_trajectory [[0.5; 0; 0; 0; 0; 0; 0]%float] [sym_attachment])] sym_sim
       = Done tt s'
       /\ ~ attachment_satisfied sym_attachment (client s').
Proof.
  split.
  - exists 11. split; vm_compute; reflexivity.
  - eexists. split; [vm_compute; reflexivity|].
    intros (l & Hl & H). injection Hl as <-. vm_compute in H. discriminate.
Qed.

(** ** The pick-place loop *)

Section OrchestratorFacts.

Context {Pose : Type} {backend : Backend Pose}.
Variable Stats : Type.
Variable json_dumps : Stats -> string.
Variable get_pick_place_plan :
  SimulatorInstance Pose -> WorldBelief Pose -> nat -> Pose ->
  (option (Command Pose) * Stats) * SimulatorInstance Pose.

Local Abbreviation process_goal := (process_goal Stats json_dumps get_pick_place_plan).
Local Abbreviation main_loop := (main_loop Stats json_dumps get_pick_place_plan).
Local Abbreviation rearrange := (rearrange Stats json_dumps get_pick_place_plan).

(** The comprehension keeps the objects of the category in list order, so
    its first element is the first object of that category. *)
Lemma first_match_from (cat : string) (objs : list (ObjectState Pose)) (n i : nat)
    (o : ObjectState Pose) :
  filter (fun io : nat * ObjectState Pose => category io.2 = cat) (enumerate_from n objs) !! 0
  = Some (i, o)
  <-> exists k, i = n + k /\ objs !! k = Some o /\ category o = cat
                /\ forall j o', j < k -> objs !! j = Some o' -> category o' <> cat.
Proof.
  revert n. induction objs as [|x objs IH]; intros n; simpl.
  - split; [done|]. by intros (k & _ & ? & _).
  - rewrite filter_cons. simpl. destruct (decide (category x = cat)) as [Hx|Hx].
    + simpl. split.
      * intros [= <- <-]. exists 0. split; [lia|]. repeat split; try done. lia.
      * intros (k & -> & Hk & Hc & Hfirst). destruct k as [|k].
        -- simpl in Hk. injection Hk as <-. by rewrite Nat.add_0_r.
        -- exfalso. apply (Hfirst 0 x); [lia|done|done].
    + rewrite IH. split.
      * intros (k & -> & Hk & Hc & Hfirst). exists (S k).
        split; [lia|]. split; [done|]. split; [done|].
        intros [|j] o' Hj Ho'; simpl in Ho'.
        -- by injection Ho' as <-.
        -- apply (Hfirst j o'); [lia|done].
      * intros (k & -> & Hk & Hc & Hfirst). destruct k as [|k].
        -- simpl in Hk. injection Hk as <-. done.
        -- exists k. split; [lia|]. split; [done|]. split; [done|].
           intros j o' Hj Ho'. apply (Hfirst (S j) o'); [lia|done].
Qed.

Lemma first_match_spec (cat : string) (objs : list (ObjectState Pose)) (i : nat)
    (o : ObjectState Pose) :
  matching_objects cat objs !! 0 = Some (i, o)
  <-> objs !! i = Some o /\ category o = cat
      /\ forall j o', j < i -> objs !! j = Some o' -> category o' <> cat.
Proof.
  unfold matching_objects, enumerate. rewrite first_match_from. split.
  - by intros (k & -> & H).
  - intros H. by exists i.
Qed.

Lemma no_match_spec (cat : string) (objs : list (ObjectState Pose)) :
  matching_objects cat objs !! 0 = None
  <-> forall o, o ∈ objs -> category o <> cat.
Proof.
  unfold matching_objects, enumerate.
  cut (forall n,
         filter (fun io : nat * ObjectState Pose => category io.2 = cat)
                (enumerate_from n objs) !! 0 = None
         <-> forall o, o ∈ objs -> category o <> cat); [by intros H|].
  induction objs as [|x objs IH]; intros n; simpl.
  - split; [|done]. intros _ o Ho. by apply elem_of_nil in Ho.
  - rewrite filter_cons. simpl. destruct (decide (category x = cat)) as [Hx|Hx].
    + simpl. split; [done|]. intros H. exfalso. apply (H x); [apply elem_of_cons; by left|done].
    + rewrite IH. split.
      * intros H o Ho. apply elem_of_cons in Ho as [->|Ho]; [done|by apply H].
      * intros H o Ho. apply H. apply elem_of_cons. by right.
Qed.

Lemma alter_as_insert {A} (f : A -> A) (l : list A) (i : nat) (x : A) :
  l !! i = Some x -> alter f i l = <[i := f x]> l.
Proof.
  revert i. induction l as [|y l IH]; intros [|i] H; simpl in *; try done.
  - by injection H as ->.
  - f_equal. by apply IH.
Qed.

(** One iteration of the loop, case by case. *)
Lemma process_goal_no_match (g : ObjectState Pose) (s : MainState Pose) :
  matching_objects (category g) (object_states (belief s)) !! 0 = None ->
  process_goal g s = Raised IndexError s.
Proof. intros H. unfold process_goal, bind, get, item. by rewrite H. Qed.

Lemma process_goal_skip (g : ObjectState Pose) (s : MainState Pose) i o :
  matching_objects (category g) (object_states (belief s)) !! 0 = Some (i, o) ->
  exceeds_tolerance (get_pose_distance (pose o) (pose g)) = false ->
  process_goal g s = Done tt s.
Proof.
  intros Hm He. unfold process_goal, bind, get, item, ret. rewrite Hm. simpl.
  by rewrite He.
Qed.

Lemma process_goal_failure (g : ObjectState Pose) (s : MainState Pose) i o b stats twin' :
  matching_objects (category g) (object_states (belief s)) !! 0 = Some (i, o) ->
  exceeds_tolerance (get_pose_distance (pose o) (pose g)) = true ->
  movable_objects (twin_sim_instance s) !! i = Some b ->
  get_pick_place_plan (twin_sim_instance s) (belief s) b (pose g) = (None, stats, twin') ->
  process_goal g s
  = Raised (SystemExit None)
      (mkMain (belief s) (plan_components s) (sim_instance s) twin'
              (stdout s ++ ["Planning failure"; json_dumps stats])
              (planner_calls s ++ [(b, pose g)])).
Proof.
  intros Hm He Hb Hp.
  unfold process_goal, bind, get, item, ret, call_planner. rewrite Hm. simpl.
  rewrite He, Hb. simpl. rewrite Hp. simpl.
  unfold print, sys_exit, modify, raise. simpl. by rewrite <- app_assoc.
Qed.

Lemma process_goal_success (g : ObjectState Pose) (s : MainState Pose) i o b stats twin'
    cs name cs1 name1 t q :
  matching_objects (category g) (object_states (belief s)) !! 0 = Some (i, o) ->
  exceeds_tolerance (get_pose_distance (pose o) (pose g)) = true ->
  movable_objects (twin_sim_instance s) !! i = Some b ->
  get_pick_place_plan (twin_sim_instance s) (belief s) b (pose g)
  = (Some (Sequence cs name), stats, twin') ->
  last cs = Some (Sequence cs1 name1) ->
  last cs1 = Some (CTrajectory t) ->
  last (path t) = Some q ->
  process_goal g s
  = Done tt
      (mkMain (mkWorldBelief
                 (<[i := mkObjectState (create_object o) (pose g) (category o)]>
                    (object_states (belief s)))
                 q (gripper_open (belief s)))
              (plan_components s ++ [Sequence cs name]) (sim_instance s) twin'
              (stdout s) (planner_calls s ++ [(b, pose g)])).
Proof.
  intros Hm He Hb Hp Hcs Hcs1 Hq.
  unfold process_goal, bind, get, item, ret, call_planner. rewrite Hm. simpl.
  rewrite He, Hb. simpl. rewrite Hp. simpl.
  unfold last_item, ret. rewrite Hcs. simpl. rewrite Hcs1. simpl. rewrite Hq.
  unfold append_plan_component, set_belief_of, modify, set_object_pose, set_robot_state.
  simpl. do 3 f_equal.
  apply (alter_as_insert
           (fun o' => mkObjectState (create_object o') (pose g) (category o'))).
  by apply first_match_spec in Hm as (Hi & _).
Qed.

(** Whatever happens in an iteration, the primary instance is not touched,
    and the strategy is called at most once. *)
Lemma process_goal_frame (g : ObjectState Pose) (s : MainState Pose) :
  sim_instance (final_state (process_goal g s)) = sim_instance s.
Proof.
  unfold process_goal, bind, get, item, ret, raise.
  destruct (matching_objects _ _ !! 0) as [[i o]|]; simpl; [|done].
  destruct (exceeds_tolerance _); [|done].
  destruct (movable_objects _ !! i) as [b|]; simpl; [|done].
  unfold call_planner. simpl.
  destruct (get_pick_place_plan _ _ _ _) as [[[sp|] st] tw]; simpl; [|done].
  unfold attr_commands, attr_path, last_item, set_belief_of, append_plan_component,
    modify, ret, raise.
  repeat (case_match; simplify_eq/=; try done).
Qed.

Lemma process_goal_calls (g : ObjectState Pose) (s : MainState Pose) i o b :
  matching_objects (category g) (object_states (belief s)) !! 0 = Some (i, o) ->
  movable_objects (twin_sim_instance s) !! i = Some b ->
  planner_calls (final_state (process_goal g s))
  = planner_calls s
    ++ (if exceeds_tolerance (get_pose_distance (pose o) (pose g))
        then [(b, pose g)] else []).
Proof.
  intros Hm Hb.
  unfold process_goal, bind, get, item, ret, raise. rewrite Hm. simpl.
  destruct (exceeds_tolerance _); [|by rewrite app_nil_r].
  rewrite Hb. simpl. unfold call_planner. simpl.
  destruct (get_pick_place_plan _ _ _ _) as [[[sp|] st] tw]; simpl; [|done].
  unfold attr_commands, attr_path, last_item, set_belief_of, append_plan_component,
    modify, ret, raise.
  repeat (case_match; simplify_eq/=; try done).
Qed.

Lemma main_loop_frame (goals : list (ObjectState Pose)) (s : MainState Pose) :
  sim_instance (final_state (main_loop goals s)) = sim_instance s.
Proof.
  revert s. induction goals as [|g goals IH]; intros s; [done|].
  unfold main_loop in *. simpl. unfold bind.
  pose proof (process_goal_frame g s) as Hg.
  destruct (process_goal g s) as [[] s1|e s1]; simpl in Hg; [|done].
  by rewrite IH.
Qed.

Lemma main_loop_skips_all (goals : list (ObjectState Pose)) (s : MainState Pose) :
  (forall g, g ∈ goals ->
     exists i o,
       matching_objects (category g) (object_states (belief s)) !! 0 = Some (i, o)
       /\ exceeds_tolerance (get_pose_distance (pose o) (pose g)) = false) ->
  main_loop goals s = Done tt s.
Proof.
  induction goals as [|g goals IH]; intros H; [done|].
  unfold main_loop in *. simpl. unfold bind.
  destruct (H g) as (i & o & Hm & He); [apply elem_of_cons; by left|].
  rewrite (process_goal_skip g s i o Hm He).
  apply IH. intros g' Hg'. apply H. apply elem_of_cons. by right.
Qed.

Lemma leaves_app (l1 l2 : list (Command Pose)) : leaves (l1 ++ l2) = leaves l1 ++ leaves l2.
Proof. apply flat_map_app. Qed.

Lemma leaves_singleton (c : Command Pose) : leaves [c] = leaves_of c.
Proof. unfold leaves. cbn [flat_map]. apply app_nil_r. Qed.

(** The last leaf of a sub-plan of the shape the loop indexes. *)
Lemma last_leaf_of_subplan (cs cs1 : list (Command Pose)) name name1 (t : Trajectory Pose) :
  last cs = Some (Sequence cs1 name1) ->
  last cs1 = Some (CTrajectory t) ->
  last (leaves [Sequence cs name]) = Some (CTrajectory t)
  /\ last (filter (fun c => is_trajectory c = true) (leaves [Sequence cs name]))
     = Some (CTrajectory t).
Proof.
  intros Hcs Hcs1.
  apply last_Some in Hcs as [l ->]. apply last_Some in Hcs1 as [l1 ->].
  assert (E : leaves [Sequence (l ++ [Sequence (l1 ++ [CTrajectory t]) name1]) name]
              = (leaves l ++ leaves l1) ++ [CTrajectory t]).
  { rewrite leaves_singleton, leaves_of_Sequence, leaves_app, leaves_singleton,
      leaves_of_Sequence, leaves_app, leaves_singleton. simpl leaves_of.
    by rewrite app_assoc. }
  rewrite E. split; [apply last_snoc|].
  rewrite filter_app.
  replace (filter (fun c => is_trajectory c = true) [CTrajectory t])
    with [CTrajectory t] by reflexivity.
  apply last_snoc.
Qed.

(** An iteration that is out of tolerance hands the twin instance, the
    belief, the simulated object and the goal pose to the strategy and
    goes on with what the strategy returned. *)
Lemma process_goal_planned (g : ObjectState Pose) (s : MainState Pose) i o b :
  matching_objects (category g) (object_states (belief s)) !! 0 = Some (i, o) ->
  exceeds_tolerance (get_pose_distance (pose o) (pose g)) = true ->
  movable_objects (twin_sim_instance s) !! i = Some b ->
  let r := get_pick_place_plan (twin_sim_instance s) (belief s) b (pose g) in
  let s' := final_state (process_goal g s) in
  twin_sim_instance s' = r.2
  /\ (r.1.1 = None ->
      process_goal g s
      = Raised (SystemExit None)
          (mkMain (belief s) (plan_components s) (sim_instance s) r.2
                  (stdout s ++ ["Planning failure"; json_dumps r.1.2])
                  (planner_calls s ++ [(b, pose g)])))
  /\ (forall sp, r.1.1 = Some sp ->
        object_states (belief s')
        = <[i := mkObjectState (create_object o) (pose g) (category o)]>
            (object_states (belief s))
        /\ forall s'', process_goal g s = Done tt s'' ->
                       plan_components s'' = plan_components s ++ [sp]).
Proof.
  intros Hm He Hb r s'. subst s'.
  assert (Hi : object_states (belief s) !! i = Some o)
    by (by apply first_match_spec in Hm as (Hi & _)).
  unfold process_goal, bind, get, item, ret, raise. rewrite Hm. simpl.
  rewrite He, Hb. simpl. unfold call_planner. simpl. fold r.
  destruct r as [[[sp|] st] tw]; simpl.
  - unfold attr_commands, attr_path, last_item, set_belief_of, append_plan_component,
      modify, ret, raise, set_object_pose, set_robot_state.
    rewrite (alter_as_insert
               (fun o' => mkObjectState (create_object o') (pose g) (category o')) _ _ _ Hi).
    split; [|split; [done|]].
    + repeat (case_match; simplify_eq/=; try done).
    + intros sp' [= <-]. split.
      * repeat (case_match; simplify_eq/=; try done).
      * intros s''. repeat (case_match; simplify_eq/=; try done).
        by intros [= <-].
  - unfold print, sys_exit, modify, raise. simpl. rewrite <- app_assoc.
    split; [done|]. split; [done|]. by intros sp.
Qed.

(** C2. Each goal object is matched to the first belief object of its
    category (IndexError when there is none); with the match [(i, o)] at
    hand the strategy is called, once, exactly when the position error or
    the orientation error between [o] and the goal pose is above 1e-2: the
    call is made on the twin instance, the belief, the simulated object of
    the match and the goal pose, the twin instance the strategy returns is
    the one the run goes on with, a None sub-plan ends the run with the
    statistics the strategy returned, and a sub-plan moves the matched
    object to the goal pose and is the one appended when the iteration
    completes.  Otherwise the iteration leaves everything as it was,
    whatever the strategy is.  Goal objects are taken in list order; and on
    a belief where every goal object is within tolerance of its match the
    whole loop changes nothing and calls the strategy for none of them. *)
Theorem goal_matching_and_replanning (g : ObjectState Pose) (s : MainState Pose) :
  let objs := object_states (belief s) in
  (forall i o,
     matching_objects (category g) objs !! 0 = Some (i, o)
     <-> objs !! i = Some o /\ category o = category g
         /\ forall j o', j < i -> objs !! j = Some o' -> category o' <> category g)
  /\ ((forall o, o ∈ objs -> category o <> category g) ->
      process_goal g s = Raised IndexError s)
  /\ (forall i o b,
        matching_objects (category g) objs !! 0 = Some (i, o) ->
        movable_objects (twin_sim_instance s) !! i = Some b ->
        let errors := get_pose_distance (pose o) (pose g) in
        let r := get_pick_place_plan (twin_sim_instance s) (belief s) b (pose g) in
        let s' := final_state (process_goal g s) in
        (exceeds_tolerance errors = true
         <-> (1e-2 <? errors.1)%float = true \/ (1e-2 <? errors.2)%float = true)
        /\ planner_calls s'
           = planner_calls s ++ (if exceeds_tolerance errors then [(b, pose g)] else [])
        /\ (exceeds_tolerance errors = true ->
            twin_sim_instance s' = r.2
            /\ (r.1.1 = None ->
                process_goal g s
                = Raised (SystemExit None)
                    (mkMain (belief s) (plan_components s) (sim_instance s) r.2
                            (stdout s ++ ["Planning failure"; json_dumps r.1.2])
                            (planner_calls s ++ [(b, pose g)])))
            /\ (forall sp, r.1.1 = Some sp ->
                  object_states (belief s')
                  = <[i := mkObjectState (create_object o) (pose g) (category o)]> objs
                  /\ forall s'', process_goal g s = Done tt s'' ->
                                 plan_components s'' = plan_components s ++ [sp]))
        /\ (exceeds_tolerance errors = false -> process_goal g s = Done tt s))
  /\ (forall gs,
        main_loop (g :: gs) s = bind (process_goal g) (fun _ => main_loop gs) s)
  /\ (forall goals,
        (forall g', g' ∈ goals ->
           exists i o,
             matching_objects (category g') objs !! 0 = Some (i, o)
             /\ exceeds_tolerance (get_pose_distance (pose o) (pose g')) = false) ->
        main_loop goals s = Done tt s).
Proof.
  intros objs. split; [intros i o; apply first_match_spec|].
  split; [intros H; by apply process_goal_no_match, no_match_spec|].
  split; [|split; [done|intros goals; apply main_loop_skips_all]].
  intros i o b Hm Hb errors r s'. split; [apply orb_true_iff|].
  split; [by apply (process_goal_calls g s i o b)|].
  split; [intros He; by apply (process_goal_planned g s i o b)|].
  intros He. by apply (process_goal_skip g s i o).
Qed.

(** C3 (on the sub-plans the loop can index). When the strategy returns
    a Sequence whose last child is a Sequence whose last child is a
    Trajectory with a non-empty path, the iteration completes: the matched
    belief object takes the goal pose (its factory and category are kept),
    the robot state becomes the last waypoint of that trajectory, which is
    the last motion segment of the sub-plan, the sub-plan is appended to
    the list, and every other field of the belief is unchanged. *)
Theorem successful_subplan_updates_belief (g : ObjectState Pose) (s : MainState Pose)
    (i : nat) (o : ObjectState Pose) (b : nat) (stats : Stats)
    (twin' : SimulatorInstance Pose) (cs cs1 : list (Command Pose))
    (name name1 : option string) (t : Trajectory Pose) (q : list float) :
  matching_objects (category g) (object_states (belief s)) !! 0 = Some (i, o) ->
  exceeds_tolerance (get_pose_distance (pose o) (pose g)) = true ->
  movable_objects (twin_sim_instance s) !! i = Some b ->
  get_pick_place_plan (twin_sim_instance s) (belief s) b (pose g)
  = (Some (Sequence cs name), stats, twin') ->
  last cs = Some (Sequence cs1 name1) ->
  last cs1 = Some (CTrajectory t) ->
  last (path t) = Some q ->
  process_goal g s
  = Done tt
      (mkMain (mkWorldBelief
                 (<[i := mkObjectState (create_object o) (pose g) (category o)]>
                    (object_states (belief s)))
                 q (gripper_open (belief s)))
              (plan_components s ++ [Sequence cs name]) (sim_instance s) twin'
              (stdout s) (planner_calls s ++ [(b, pose g)]))
  /\ last (filter (fun c => is_trajectory c = true) (leaves [Sequence cs name]))
     = Some (CTrajectory t).
Proof.
  intros Hm He Hb Hp Hcs Hcs1 Hq. split.
  - by apply (process_goal_success g s i o b stats twin' cs name cs1 name1 t q).
  - by apply (last_leaf_of_subplan cs cs1 name name1 t).
Qed.

(** C1 (with the exit status the code gives). When the strategy returns
    None for a goal object that is out of tolerance, the run prints
    "Planning failure" and the serialised statistics and ends in
    [sys.exit()], whose status is 0: nothing is handed to the primary
    instance, which is as it was when the loop started, the list of
    sub-plans collected so far is dropped unexecuted, and the belief is the
    one reached after the earlier goal objects, not the initial one. *)
Theorem planning_failure_exits (goal_belief : WorldBelief Pose)
    (pre post : list (ObjectState Pose)) (g : ObjectState Pose)
    (s0 s : MainState Pose) (i : nat) (o : ObjectState Pose) (b : nat)
    (stats : Stats) (twin' : SimulatorInstance Pose) :
  object_states goal_belief = pre ++ g :: post ->
  main_loop pre s0 = Done tt s ->
  matching_objects (category g) (object_states (belief s)) !! 0 = Some (i, o) ->
  exceeds_tolerance (get_pose_distance (pose o) (pose g)) = true ->
  movable_objects (twin_sim_instance s) !! i = Some b ->
  get_pick_place_plan (twin_sim_instance s) (belief s) b (pose g) = (None, stats, twin') ->
  rearrange goal_belief s0
  = Raised (SystemExit None)
      (mkMain (belief s) (plan_components s) (sim_instance s0) twin'
              (stdout s ++ ["Planning failure"; json_dumps stats])
              (planner_calls s ++ [(b, pose g)]))
  /\ exit_status (rearrange goal_belief s0) = 0%Z.
Proof.
  intros Hgoals Hpre Hm He Hb Hp.
  assert (Hsim : sim_instance s = sim_instance s0).
  { pose proof (main_loop_frame pre s0) as H. by rewrite Hpre in H. }
  assert (Hrun : rearrange goal_belief s0
                 = Raised (SystemExit None)
                     (mkMain (belief s) (plan_components s) (sim_instance s0) twin'
                             (stdout s ++ ["Planning failure"; json_dumps stats])
                             (planner_calls s ++ [(b, pose g)]))).
  { unfold rearrange, bind at 1. rewrite Hgoals. unfold main_loop in *.
    rewrite (for_each_done_app _ _ _ _ _ Hpre). simpl for_each. unfold bind at 1.
    rewrite (process_goal_failure g s i o b stats twin' Hm He Hb Hp).
    by rewrite Hsim. }
  split; [exact Hrun|]. by rewrite Hrun.
Qed.

End OrchestratorFacts.

(** ** Runs of the loop on the symbolic backend *)

(** Witness for C2: the red box believed at x = 0.3 with the goal at
    x = 0.4 is planned for once; the sub-plan collected is the one the
    strategy returned, and a strategy that returns None ends the run; the
    loop run on the belief itself as the goal does nothing. *)
Lemma goal_matching_and_replanning_witness :
  planner_calls (final_state (process_goal string id sym_planner (sym_red_box 0.4) sym_main))
  = [(2, pose (sym_red_box 0.4))]
  /\ (forall s'', process_goal string id sym_planner (sym_red_box 0.4) sym_main = Done tt s'' ->
                  plan_components s'' = [sym_pick_place 2])
  /\ process_goal string id sym_failing_planner (sym_red_box 0.4) sym_main
     = Raised (SystemExit None)
         (mkMain sym_belief [] sym_sim sym_sim ["Planning failure"; "{}"]
                 [(2, pose (sym_red_box 0.4))])
  /\ main_loop string id sym_planner (object_states sym_belief) sym_main = Done tt sym_main.
Proof.
  destruct (goal_matching_and_replanning string id sym_planner (sym_red_box 0.4) sym_main)
    as (_ & _ & Hcall & _ & Hskip).
  destruct (goal_matching_and_replanning string id sym_failing_planner (sym_red_box 0.4)
              sym_main) as (_ & _ & Hfail & _).
  split; [|split; [|split]].
  - destruct (Hcall 0 (sym_red_box 0.3) 2) as (_ & H & _);
      [vm_compute; reflexivity | reflexivity | exact H].
  - destruct (Hcall 0 (sym_red_box 0.3) 2) as (_ & _ & H & _);
      [vm_compute; reflexivity | reflexivity |].
    destruct H as (_ & _ & H); [vm_compute; reflexivity|].
    destruct (H (sym_pick_place 2) eq_refl) as [_ Hdone]. exact Hdone.
  - destruct (Hfail 0 (sym_red_box 0.3) 2) as (_ & _ & H & _);
      [vm_compute; reflexivity | reflexivity |].
    destruct H as (_ & H & _); [vm_compute; reflexivity|].
    apply H. reflexivity.
  - apply Hskip. intros g' Hg'. apply list_elem_of_singleton in Hg' as ->.
    exists 0, (sym_red_box 0.3). split; vm_compute; reflexivity.
Defined.

(** Witness for C3: the pick-and-place sub-plan of [sym_planner]. *)
Lemma successful_subplan_updates_belief_witness :
  process_goal string id sym_planner (sym_red_box 0.4) sym_main
  = Done tt (mkMain (mkWorldBelief [sym_red_box 0.4] sym_final_conf true)
                    [sym_pick_place 2] sym_sim sym_sim []
                    [(2, pose (sym_red_box 0.4))]).
Proof.
  refine (proj1 (successful_subplan_updates_belief string id sym_planner
            (sym_red_box 0.4) sym_main 0 (sym_red_box 0.3) 2 "{}" sym_sim
            _ _ None (Some "place")
            (sym_trajectory [DEFAULT_JOINT_POSITIONS; sym_final_conf] []) sym_final_conf
            _ _ _ _ _ _ _)); try reflexivity; vm_compute; reflexivity.
Defined.

(** Counterexample for C3: the strategy returns a sub-plan, a Sequence of
    one bare Trajectory; the iteration raises AttributeError after the
    object pose was set, the robot state is not the last waypoint of the
    sub-plan and the sub-plan is not appended. *)
Lemma flat_subplan_raises :
  let r := process_goal string id sym_flat_planner (sym_red_box 0.4) sym_main in
  (sym_flat_planner sym_sim sym_belief 2 (pose (sym_red_box 0.4))).1.1
  = Some (Sequence [CTrajectory (sym_trajectory [sym_final_conf] [])] None)
  /\ r = Raised (AttributeError "commands") (final_state r)
  /\ map pose (object_states (belief (final_state r))) = [pose (sym_red_box 0.4)]
  /\ robot_state (belief (final_state r)) = DEFAULT_JOINT_POSITIONS
  /\ robot_state (belief (final_state r)) <> sym_final_conf
  /\ plan_components (final_state r) = [].
Proof.
  repeat split; try (vm_compute; reflexivity).
  intros H.
  apply (f_equal (fun l => match l with x :: _ => (x <? 0)%float | [] => false end)) in H.
  vm_compute in H. discriminate.
Qed.

(** Witness for C1: the strategy finds no plan for the red box. *)
Lemma planning_failure_exits_witness :
  rearrange string id sym_failing_planner sym_goal sym_main
  = Raised (SystemExit None)
      (mkMain sym_belief [] sym_sim sym_sim ["Planning failure"; "{}"]
              [(2, pose (sym_red_box 0.4))])
  /\ exit_status (rearrange string id sym_failing_planner sym_goal sym_main) = 0%Z.
Proof.
  apply (planning_failure_exits string id sym_failing_planner sym_goal
           [] [] (sym_red_box 0.4) sym_main sym_main 0 (sym_red_box 0.3) 2 "{}" sym_sim);
    try reflexivity; vm_compute; reflexivity.
Defined.

(** Counterexample for C1: on that run the process ends with status 0,
    so the exit is not a non-zero one. *)
Lemma planning_failure_exit_status_zero :
  let r := rearrange string id sym_failing_planner sym_goal sym_main in
  (exists s', r = Raised (SystemExit None) s'
              /\ stdout s' = ["Planning failure"; "{}"])
  /\ ~ (exit_status r <> 0%Z).
Proof.
  split.
  - eexists. split; [vm_compute; reflexivity|reflexivity].
  - intros H. apply H. vm_compute. reflexivity.
Qed.

(** Witness for C5: a tree nested three deep, with an empty Sequence and
    a base-class command between its trajectories, on a session bound to
    hardware: the two trajectories before the unknown command are played
    in order and the unknown command raises. *)
Lemma execute_sequence_flattened_witness :
  let t1 := CTrajectory (sym_trajectory [[0.1; 0; 0; 0; 0; 0; 0]%float] []) in
  let t2 := CTrajectory (sym_trajectory [[0.2; 0; 0; 0; 0; 0; 0]%float] []) in
  let t3 := CTrajectory (sym_trajectory [[0.3; 0; 0; 0; 0; 0; 0]%float] []) in
  let cs := [Sequence [Sequence [t1] None; t2] (Some "a"); Sequence [] None;
             BaseCommand; t3] in
  execute_sequence cs sym_real_sim
  = Raised (ValueError "Unknown command type: Command")
           (final_state (execute_sequence [t1; t2] sym_real_sim))
  /\ execute_sequence [Sequence [Sequence [t1] None] None; Sequence [t2; t3] None] sym_real_sim
     = bind (dispatch t2) (fun _ => execute_sequence [t3])
            (final_state (execute_sequence [t1] sym_real_sim)).
Proof.
  intros t1 t2 t3 cs. split.
  - destruct (execute_sequence_flattened cs sym_real_sim) as (_ & _ & _ & _ & H).
    apply (H [t1; t2] [t3]); [reflexivity | vm_compute; reflexivity].
  - destruct (execute_sequence_flattened
                [Sequence [Sequence [t1] None] None; Sequence [t2; t3] None] sym_real_sim)
      as (_ & _ & H & _).
    apply (H [t1] t2 [t3]); [reflexivity | vm_compute; reflexivity].
Defined.

(** Witness for C10: the grasp generated for the box on the symbolic
    session. *)
Lemma tool_link_is_None_witness :
  exists g, gen_fn 2 sym_sim = Done g sym_sim /\ parent_link (attachment g) = None.
Proof.
  destruct (tool_link_is_None sym_sim 2) as (_ & _ & H).
  apply (H 0%float). reflexivity.
Defined.

(** ** Groups, hardware mirroring and completion of the interpreter *)

Section InterpreterMore.

Context {Pose : Type} {backend : Backend Pose}.

Lemma unknown_group_lookup (group : string) :
  group <> "base" -> group <> "main_arm" -> group <> "main_gripper" ->
  dict_get PANDA_GROUPS group = None.
Proof.
  intros H1 H2 H3. unfold PANDA_GROUPS, dict_get.
  destruct (String.eqb_spec "base" group) as [E|_]; [by rewrite <- E in H1|].
  destruct (String.eqb_spec "main_arm" group) as [E|_]; [by rewrite <- E in H2|].
  destruct (String.eqb_spec "main_gripper" group) as [E|_]; [by rewrite <- E in H3|].
  done.
Qed.

(** X1. A group name that is not a key of PANDA_GROUPS makes every group
    method raise KeyError for that name, with the session left as it
    was. *)
Theorem unknown_group_raises_KeyError (group : string) (q : list float)
    (s : SimulatorInstance Pose) :
  group <> "base" -> group <> "main_arm" -> group <> "main_gripper" ->
  get_group_joints group s = Raised (KeyError group) s
  /\ get_group_limits group s = Raised (KeyError group) s
  /\ get_group_positions group s = Raised (KeyError group) s
  /\ set_group_positions group q s = Raised (KeyError group) s.
Proof.
  intros H1 H2 H3. pose proof (unknown_group_lookup group H1 H2 H3) as H.
  unfold get_group_limits, get_group_positions, set_group_positions, get_group_joints,
    bind, get, raise.
  by rewrite H.
Qed.



(** X2. Playing a path whose waypoints are all configurations of the
    seven arm joints completes: on a session bound to hardware the sender
    receives one arm command per waypoint, in path order, and then one
    position path holding every waypoint (also for an empty path); on a
    simulated session the sender receives nothing.  A waypoint that is not
    a configuration of the seven arm joints raises AssertionError when it
    is reached: the waypoints before it have been applied and forwarded,
    and no position path is sent.  In either outcome only the joint
    positions of the session change. *)
Theorem command_trajectory_sender_log (q : list (list float)) (s : SimulatorInstance Pose) :
  let arm := fun p : list float => length p = length ARM_JOINT_NAMES in
  let play := fun (q' : list (list float)) =>
                fold_left (fun w p => assign_joints (robot s)
                                        (joints_from_names (robot s) ARM_JOINT_NAMES) p w)
                          q' (client s) in
  let s' := final_state (command_trajectory q s) in
  (Forall arm q ->
   command_trajectory q s = Done tt s'
   /\ client s' = play q
   /\ sender s'
      = sender s ++ (if real_robot s
                     then map HwCommandArm q
                          ++ [HwExecutePositionPath (map named_position q)]
                     else []))
  /\ (forall q1 p q2,
        q = q1 ++ p :: q2 -> Forall arm q1 -> ~ arm p ->
        command_trajectory q s = Raised AssertionError s'
        /\ client s' = play q1
        /\ sender s' = sender s ++ (if real_robot s then map HwCommandArm q1 else []))
  /\ body_pose (client s') = body_pose (client s)
  /\ next_body (client s') = next_body (client s)
  /\ movable_objects s' = movable_objects s
  /\ components s' = components s.
Proof.
  intros arm play s'. subst s' play.
  destruct (command_trajectory_frame q s) as (Hb & Hn & _ & _ & Hm & Hc & _).
  split; [|split; [|done]].
  - intros Hq. by rewrite command_trajectory_played.
  - intros q1 p q2 -> Hq1 Hp. by rewrite command_trajectory_refused.
Qed.

(** X4. On a session bound to hardware, closing (opening) the gripper
    first forwards the closed (open) gripper limits to the arm command of
    the sender and then sends the close (open) gripper command; in the
    session the gripper joints are set to those limits. *)
Theorem gripper_hardware_log (s : SimulatorInstance Pose) :
  real_robot s = true ->
  let js := joints_from_names (robot s) ["panda_finger_joint1"; "panda_finger_joint2"] in
  let limits := get_custom_limits (robot s) js in
  exists s1 s2,
    close_gripper s = Done tt s1
    /\ sender s1 = sender s ++ [HwCommandArm limits.1; HwCloseGripper]
    /\ set_joint_positions (robot s) js limits.1 (client s) = inr (client s1)
    /\ client s1 = assign_joints (robot s) js limits.1 (client s)
    /\ open_gripper s = Done tt s2
    /\ sender s2 = sender s ++ [HwCommandArm limits.2; HwOpenGripper]
    /\ set_joint_positions (robot s) js limits.2 (client s) = inr (client s2)
    /\ client s2 = assign_joints (robot s) js limits.2 (client s).
Proof.
  intros Hr js limits. destruct (gripper_result s) as [Hc Ho].
  destruct (get_custom_limits_length (robot s) js) as [H1 H2].
  fold limits in H1, H2.
  do 2 eexists. split; [exact Hc|]. simpl. rewrite Hr.
  split; [done|]. split.
  { unfold set_joint_positions. by rewrite H1, Nat.eqb_refl. }
  split; [done|]. split; [exact Ho|]. simpl. rewrite Hr.
  split; [done|]. split; [|done].
  unfold set_joint_positions. by rewrite H2, Nat.eqb_refl.
Qed.

(** Every leaf leaves the scene as it was: a trajectory writes joint
    positions only, the other leaves raise before doing anything. *)
Lemma dispatch_leaf_frame (c : Command Pose) (s : SimulatorInstance Pose) :
  is_sequence c = false ->
  let s' := final_state (dispatch c s) in
  body_pose (client s') = body_pose (client s)
  /\ next_body (client s') = next_body (client s)
  /\ robot s' = robot s /\ table s' = table s
  /\ movable_objects s' = movable_objects s
  /\ components s' = components s
  /\ real_robot s' = real_robot s.
Proof.
  destruct c as [t|r l b|r l b|cs name|]; intros Hs; try done.
  simpl dispatch. apply command_trajectory_frame.
Qed.

Lemma leaves_frame (l : list (Command Pose)) :
  Forall (fun c => is_sequence c = false) l ->
  forall s,
    let s' := final_state (execute_sequence l s) in
    body_pose (client s') = body_pose (client s)
    /\ next_body (client s') = next_body (client s)
    /\ robot s' = robot s /\ table s' = table s
    /\ movable_objects s' = movable_objects s
    /\ components s' = components s
    /\ real_robot s' = real_robot s.
Proof.
  induction 1 as [|c l Hc _ IH]; intros s; [done|].
  unfold execute_sequence in *. simpl for_each. unfold bind.
  pose proof (dispatch_leaf_frame c s Hc) as Hf.
  destruct (dispatch c s) as [[] s1|e s1]; simpl in Hf; [|exact Hf].
  destruct (IH s1) as (H1 & H2 & H3 & H4 & H5 & H6 & H7).
  destruct Hf as (F1 & F2 & F3 & F4 & F5 & F6 & F7).
  simpl. rewrite H1, H2, H3, H4, H5, H6, H7. done.
Qed.

(** X6. Whatever the command tree and whether the run completes or
    raises, the interpreter never changes the pose of any body, never
    creates a body, and leaves the robot, the table, the tracked objects
    and the component cache of the instance as they were. *)
Theorem execute_sequence_keeps_scene (cs : list (Command Pose)) (s : SimulatorInstance Pose) :
  let s' := final_state (execute_sequence cs s) in
  body_pose (client s') = body_pose (client s)
  /\ next_body (client s') = next_body (client s)
  /\ robot s' = robot s /\ table s' = table s
  /\ movable_objects s' = movable_objects s
  /\ components s' = components s
  /\ real_robot s' = real_robot s.
Proof.
  rewrite execute_sequence_leaves. apply leaves_frame, leaves_no_sequence.
Qed.

Lemma leaves_complete_iff (l : list (Command Pose)) :
  Forall (fun c => is_sequence c = false) l ->
  forall s,
    (exists s', execute_sequence l s = Done tt s')
    <-> Forall (fun c => exists t,
                  c = CTrajectory t
                  /\ Forall (fun p => length p = length ARM_JOINT_NAMES) (path t)) l.
Proof.
  induction 1 as [|c l Hc _ IH]; intros s.
  - split; [constructor|]. intros _. by exists s.
  - unfold execute_sequence in *. simpl for_each. unfold bind.
    destruct c as [t|r lk b|r lk b|cs name|]; try done.
    + simpl dispatch.
      destruct (path_split (path t)) as [Hq|(q1 & p & q2 & Hpath & Hq1 & Hp)].
      * rewrite command_trajectory_played by done. rewrite IH.
        split; [intros Hl; constructor; [by exists t|done]|].
        by intros [_ Hl]%Forall_cons.
      * rewrite Hpath, command_trajectory_refused by done.
        split; [by intros [? ?]|].
        intros [(t' & [= <-] & Ht) _]%Forall_cons. rewrite Hpath in Ht.
        apply Forall_app in Ht as [_ Ht]. by apply Forall_cons in Ht as [? _].
    + simpl. split; [by intros [? ?]|]. by intros [(? & ? & _) _]%Forall_cons.
    + simpl. split; [by intros [? ?]|]. by intros [(? & ? & _) _]%Forall_cons.
    + simpl. split; [by intros [? ?]|]. by intros [(? & ? & _) _]%Forall_cons.
Qed.

(** X5. A command tree runs to completion exactly when every one of its
    leaves is a Trajectory whose waypoints are all configurations of the
    seven arm joints: a tree holding a grasp leaf, a base-class command or
    a waypoint of another length anywhere always ends in an exception. *)
Theorem execute_sequence_completes_iff (cs : list (Command Pose)) (s : SimulatorInstance Pose) :
  (exists s', execute_sequence cs s = Done tt s')
  <-> Forall (fun c => exists t,
                c = CTrajectory t
                /\ Forall (fun p => length p = length ARM_JOINT_NAMES) (path t))
             (leaves cs).
Proof.
  rewrite execute_sequence_leaves. apply leaves_complete_iff, leaves_no_sequence.
Qed.

End InterpreterMore.

(** ** Belief synchronisation, joint round trip and grasp generation *)

Section SessionMore.

Context {Pose : Type} {backend : Backend Pose}.

Lemma place_created_loop (objs : list (ObjectState Pose)) (s : SimulatorInstance Pose) :
  for_each place_created objs s
  = Done tt (mkSim (fold_left (fun w o => set_pose (create_object o w).1 (pose o)
                                                   (create_object o w).2)
                              objs (client s))
                   (robot s) (table s) (movable_objects s) (components s)
                   (real_robot s) (sender s)).
Proof.
  revert s. induction objs as [|o objs IH]; intros s.
  - by destruct s.
  - simpl for_each. unfold bind at 1, place_created at 1, bind, get, modify.
    by rewrite IH.
Qed.

(** The outcomes of [set_belief], by the length comparison and the
    length of the robot state of the belief. *)
Lemma set_belief_cases (belief : WorldBelief Pose) (s : SimulatorInstance Pose) :
  let arm := joints_from_names (robot s) ARM_JOINT_NAMES in
  let fingers := joints_from_names (robot s) ["panda_finger_joint1"; "panda_finger_joint2"] in
  let limits := get_custom_limits (robot s) fingers in
  let target := if gripper_open belief then limits.2 else limits.1 in
  let placed := fold_left (fun w o => set_pose (create_object o w).1 (pose o)
                                               (create_object o w).2)
                          (object_states belief) (client s) in
  (length (object_states belief) <> length (movable_objects s) ->
   set_belief belief s = Raised AssertionError s)
  /\ (length (object_states belief) = length (movable_objects s) ->
      length (robot_state belief) <> length ARM_JOINT_NAMES ->
      set_belief belief s
      = Raised AssertionError
          (mkSim placed (robot s) (table s) (movable_objects s) (components s)
                 (real_robot s) (sender s)))
  /\ (length (object_states belief) = length (movable_objects s) ->
      length (robot_state belief) = length ARM_JOINT_NAMES ->
      exists s',
        set_belief belief s = Done tt s'
        /\ client s'
           = assign_joints (robot s) fingers target
               (assign_joints (robot s) arm (robot_state belief) placed)
        /\ movable_objects s' = movable_objects s
        /\ robot s' = robot s /\ table s' = table s
        /\ (real_robot s = false -> sender s' = sender s)).
Proof.
  intros arm fingers limits target placed.
  split; [apply set_belief_rejects_mismatch|].
  assert (Hloop : length (object_states belief) = length (movable_objects s) ->
                  set_belief belief s
                  = bind (set_group_positions ARM_GROUP (robot_state belief))
                         (fun _ => if gripper_open belief then open_gripper
                                   else close_gripper)
                         (mkSim placed (robot s) (table s) (movable_objects s)
                                (components s) (real_robot s) (sender s))).
  { intros Hlen. unfold set_belief, bind at 1, get. rewrite Hlen, Nat.eqb_refl.
    cbn [negb]. unfold bind at 1. by rewrite place_created_loop. }
  split.
  - intros Hlen Hq. rewrite Hloop by done. unfold bind.
    by rewrite set_arm_positions_refused.
  - intros Hlen Hq. rewrite Hloop by done. unfold bind.
    rewrite set_arm_positions_step by done. cbn [robot client table movable_objects
      components real_robot sender].
    destruct (gripper_result
                (mkSim (assign_joints (robot s) arm (robot_state belief) placed)
                       (robot s) (table s) (movable_objects s) (components s)
                       (real_robot s)
                       (sender s ++ (if real_robot s
                                     then [HwCommandArm (robot_state belief)] else []))))
      as [Hc Ho].
    subst target. destruct (gripper_open belief); eexists;
      (split; [first [exact Ho|exact Hc]|]); simpl;
      repeat (split; [done|]); intros ->; by rewrite !app_nil_r.
Qed.

(** X7. [set_belief] raises AssertionError with the instance untouched
    when the belief has another number of object states than the instance
    tracks objects.  Otherwise it runs every object factory once and poses
    the body it returns; then it sets the arm group to the belief's robot
    state, which raises AssertionError (the new bodies staying in the
    session) unless the robot state has one value per arm joint; then it
    opens or closes the gripper as the belief says and completes.  The
    list of tracked objects, the robot and the table are the same as
    before. *)
Theorem set_belief_outcome (belief : WorldBelief Pose) (s : SimulatorInstance Pose) :
  let arm := joints_from_names (robot s) ARM_JOINT_NAMES in
  let fingers := joints_from_names (robot s) ["panda_finger_joint1"; "panda_finger_joint2"] in
  let limits := get_custom_limits (robot s) fingers in
  let target := if gripper_open belief then limits.2 else limits.1 in
  let placed := fold_left (fun w o => set_pose (create_object o w).1 (pose o)
                                               (create_object o w).2)
                          (object_states belief) (client s) in
  (length (object_states belief) <> length (movable_objects s) ->
   set_belief belief s = Raised AssertionError s)
  /\ (length (object_states belief) = length (movable_objects s) ->
      length (robot_state belief) <> length ARM_JOINT_NAMES ->
      set_belief belief s
      = Raised AssertionError
          (mkSim placed (robot s) (table s) (movable_objects s) (components s)
                 (real_robot s) (sender s)))
  /\ (length (object_states belief) = length (movable_objects s) ->
      length (robot_state belief) = length ARM_JOINT_NAMES ->
      exists s',
        set_belief belief s = Done tt s'
        /\ client s'
           = assign_joints (robot s) fingers target
               (assign_joints (robot s) arm (robot_state belief) placed)
        /\ movable_objects s' = movable_objects s
        /\ robot s' = robot s /\ table s' = table s
        /\ (real_robot s = false -> sender s' = sender s)).
Proof. exact (set_belief_cases belief s). Qed.

Lemma create_box_fold (objs : list (ObjectState Pose)) (w : World Pose) :
  Forall (fun o => create_object o = create_box) objs ->
  let w1 := fold_left (fun w o => set_pose (create_object o w).1 (pose o)
                                           (create_object o w).2) objs w in
  next_body w1 = next_body w + length objs
  /\ (forall b, b < next_body w -> body_pose w1 !! b = body_pose w !! b)
  /\ (forall k o, objs !! k = Some o -> body_pose w1 !! (next_body w + k) = Some (pose o)).
Proof.
  intros H. revert w. induction H as [|o objs Ho _ IH]; intros w.
  - simpl. split; [lia|]. split; [done|]. by intros k o Hk.
  - simpl fold_left. rewrite Ho.
    destruct (IH (set_pose (create_box w).1 (pose o) (create_box w).2))
      as (Hn & Hold & Hnew).
    simpl in Hn, Hold, Hnew. cbv zeta. split; [simpl; lia|]. split.
    + intros b Hb. rewrite Hold by lia.
      rewrite !lookup_insert_ne by lia. done.
    + intros [|k] o' Hk; simpl in Hk.
      * injection Hk as <-. rewrite Nat.add_0_r, Hold by lia.
        by rewrite lookup_insert_eq.
      * replace (next_body w + S k) with (S (next_body w) + k) by lia.
        by apply Hnew.
Qed.

(** X8. When the object factories are [create_box] (as in the shipped
    perception), every call of [set_belief] that passes the assertion adds
    one new body per object state, at that state's pose, and leaves the
    pose of every body that existed before, tracked or not, as it was;
    this is so whether the call then completes, which it does when the
    robot state of the belief has one value per arm joint, or raises. *)
Theorem set_belief_adds_bodies (belief : WorldBelief Pose) (s : SimulatorInstance Pose) :
  length (object_states belief) = length (movable_objects s) ->
  Forall (fun o => create_object o = create_box) (object_states belief) ->
  let s' := final_state (set_belief belief s) in
  next_body (client s') = next_body (client s) + length (object_states belief)
  /\ (forall b, b < next_body (client s) ->
        body_pose (client s') !! b = body_pose (client s) !! b)
  /\ (forall k o, object_states belief !! k = Some o ->
        body_pose (client s') !! (next_body (client s) + k) = Some (pose o))
  /\ (length (robot_state belief) = length ARM_JOINT_NAMES ->
      set_belief belief s = Done tt s').
Proof.
  intros Hlen Hbox s'. subst s'.
  destruct (set_belief_cases belief s) as (_ & Hbad & Hgood).
  destruct (decide (length (robot_state belief) = length ARM_JOINT_NAMES)) as [Hq|Hq].
  - destruct (Hgood Hlen Hq) as (s' & Hs' & Hc & _). rewrite Hs'. simpl.
    rewrite Hc. simpl.
    destruct (create_box_fold (object_states belief) (client s) Hbox) as (H1 & H2 & H3).
    done.
  - rewrite (Hbad Hlen Hq). simpl.
    destruct (create_box_fold (object_states belief) (client s) Hbox) as (H1 & H2 & H3).
    done.
Qed.

(** Reading back what [set_joint_positions] wrote. *)
Lemma fold_insert_other (body : nat) (l : list (nat * float)) (m : gmap (nat * nat) float)
    (j : nat) :
  j ∉ l.*1 ->
  fold_left (fun m jv => <[(body, jv.1) := jv.2]> m) l m !! (body, j) = m !! (body, j).
Proof.
  revert m. induction l as [|[j' v] l IH]; intros m Hj; [done|].
  simpl in *. apply not_elem_of_cons in Hj as [Hne Hj].
  rewrite IH by done. apply lookup_insert_ne. congruence.
Qed.

Lemma get_after_set (body : nat) (js : list nat) (q : list float) (w : World Pose) :
  NoDup js -> length q = length js ->
  get_joint_positions body js (assign_joints body js q w) = q.
Proof.
  unfold get_joint_positions, assign_joints. simpl.
  generalize (joint_position w). revert q.
  induction js as [|j js IH]; intros [|v q] m Hnd Hlen; simpl in *; try done.
  apply NoDup_cons in Hnd as [Hj Hnd]. f_equal.
  - rewrite fold_insert_other.
    + by rewrite lookup_insert_eq.
    + rewrite fst_zip by lia. done.
  - apply IH; [done|lia].
Qed.

(** X9. Writing a configuration to a known group and reading the group
    back returns the configuration, provided the group's joints are
    distinct and the configuration has one value per joint; this holds on
    simulated and on hardware-bound sessions alike. *)
Theorem set_then_get_group_positions (group : string) (names : list string)
    (q : list float) (s : SimulatorInstance Pose) :
  dict_get PANDA_GROUPS group = Some names ->
  NoDup (joints_from_names (robot s) names) ->
  length q = length (joints_from_names (robot s) names) ->
  exists s',
    set_group_positions group q s = Done tt s'
    /\ get_group_positions group s' = Done q s'.
Proof.
  intros Hg Hnd Hlen.
  assert (Hset : set_group_positions group q s
                 = Done tt (mkSim (assign_joints (robot s)
                                     (joints_from_names (robot s) names) q (client s))
                                  (robot s) (table s) (movable_objects s) (components s)
                                  (real_robot s)
                                  (sender s ++ (if real_robot s
                                                then [HwCommandArm q] else [])))).
  { rewrite (set_group_positions_known group names) by done.
    rewrite joints_from_names_length in Hlen. by rewrite Hlen, Nat.eqb_refl. }
  eexists. split; [exact Hset|].
  unfold get_group_positions, get_group_joints, bind, get, ret.
  rewrite Hg. simpl. by rewrite get_after_set.
Qed.

(** X10. The grasp generator reads the first closed gripper limit: with
    no closed limit it raises IndexError; otherwise it returns, for any
    object, a grasp closing 5e-2 beyond that limit whose relative pose is
    the same fixed transform, and the session is never modified. *)
Theorem gen_fn_outcome (obj : nat) (sim : SimulatorInstance Pose) :
  let closed := (get_custom_limits (robot sim)
                   (joints_from_names (robot sim)
                      ["panda_finger_joint1"; "panda_finger_joint2"])).1 in
  (closed = [] -> gen_fn obj sim = Raised IndexError sim)
  /\ (forall c0 rest, closed = c0 :: rest ->
        exists g,
          gen_fn obj sim = Done g sim
          /\ closed_position g = (c0 * (1 + 5e-2))%float
          /\ forall obj' g', gen_fn obj' sim = Done g' sim ->
               parent_T_child (attachment g') = parent_T_child (attachment g)
               /\ closed_position g' = closed_position g).
Proof.
  intros closed. subst closed.
  unfold gen_fn, get_group_limits, get_group_joints, item, bind, get, ret, raise.
  simpl. split.
  - by intros ->.
  - intros c0 rest ->. simpl. eexists. split; [done|]. split; [done|].
    by intros obj' g' [= <-].
Qed.

(** X11. [Conf.assign] writes the configuration into the session of the
    instance it is given, for the robot of that instance (the robot stored
    in the Conf is not read), and never forwards anything to the hardware
    sender, unlike [set_group_positions] with the same joints, which on a
    hardware-bound session also sends the arm command.  Both raise
    AssertionError and change nothing when the configuration has another
    number of values than joints. *)
Theorem Conf_assign_is_silent (c : Conf) (s : SimulatorInstance Pose) :
  conf_joints c = joints_from_names (robot s) ARM_JOINT_NAMES ->
  (length (positions c) = length (conf_joints c) ->
   exists s1 s2,
     Conf_assign c s = Done tt s1
     /\ set_group_positions ARM_GROUP (positions c) s = Done tt s2
     /\ client s1 = client s2
     /\ sender s1 = sender s
     /\ sender s2 = sender s ++ (if real_robot s then [HwCommandArm (positions c)] else [])
     /\ forall r, Conf_assign (mkConf r (conf_joints c) (positions c)) s = Done tt s1)
  /\ (length (positions c) <> length (conf_joints c) ->
      Conf_assign c s = Raised AssertionError s
      /\ set_group_positions ARM_GROUP (positions c) s = Raised AssertionError s).
Proof.
  intros Hj. pose proof (joints_from_names_length (robot s) ARM_JOINT_NAMES) as Hn.
  split.
  - intros Hlen.
    assert (Hrun : forall r, Conf_assign (mkConf r (conf_joints c) (positions c)) s
                             = Done tt (with_client
                                          (fun _ => assign_joints (robot s) (conf_joints c)
                                                      (positions c) (client s)) s)).
    { intros r. unfold Conf_assign, bind, get, on_client, set_joint_positions. simpl.
      by rewrite Hlen, Nat.eqb_refl. }
    do 2 eexists. split; [destruct c; apply Hrun|].
    split; [apply set_arm_positions_step; congruence|]. simpl.
    split; [by rewrite Hj|]. split; [done|]. split; [done|]. exact Hrun.
  - intros Hlen. split.
    + unfold Conf_assign, bind, get, on_client, set_joint_positions.
      destruct (Nat.eqb_spec (length (conf_joints c)) (length (positions c)));
        [congruence|done].
    + apply set_arm_positions_refused. congruence.
Qed.

End SessionMore.

(** ** Component cache and construction from a belief *)

Section ComponentsMore.

Context {Pose : Type} {backend : Backend Pose}.

Variable get_link_parent : nat -> nat -> nat.
Variable get_link_subtree : nat -> nat -> list nat.
Variable get_movable_joints : nat -> list nat.
Variable get_movable_joint_descendants : nat -> nat -> list nat.
Variable safe_zip : list nat -> list nat -> Exn + list (nat * nat).

Local Abbreviation get_group_parent := (get_group_parent get_link_parent).
Local Abbreviation get_group_subtree := (get_group_subtree get_link_parent get_link_subtree).
Local Abbreviation get_component := (get_component get_link_parent get_link_subtree).
Local Abbreviation get_component_mapping :=
  (get_component_mapping get_link_parent get_movable_joints
                         get_movable_joint_descendants safe_zip).
Local Abbreviation get_component_joints :=
  (get_component_joints get_link_parent get_movable_joints
                        get_movable_joint_descendants safe_zip).

Lemma get_group_joints_pure (group : string) (s : SimulatorInstance Pose) :
  s = final_state (get_group_joints group s).
Proof. unfold get_group_joints, bind, get. by destruct (dict_get _ _). Qed.

Lemma get_group_parent_pure (group : string) (s : SimulatorInstance Pose) :
  final_state (get_group_parent group s) = s.
Proof.
  unfold get_group_parent, get_group_joints, item, bind, get, ret, raise.
  destruct (dict_get _ _); simpl; [|done]. by destruct (_ !! 0).
Qed.

Lemma get_group_subtree_pure (group : string) (s : SimulatorInstance Pose) :
  final_state (get_group_subtree group s) = s.
Proof.
  unfold get_group_subtree, bind at 1, get, bind.
  pose proof (get_group_parent_pure group s) as H.
  destruct (get_group_parent group s); simpl in *; by subst.
Qed.

(** X12. The component of a group is cloned at most once: a call that
    finds the group in the cache returns the cached body and changes
    nothing; a call that succeeds on an empty cache entry creates exactly
    one new body, records it for the group and keeps every other cache
    entry; and after any successful call, further calls (with either value
    of the visual flag) return the same body and leave the instance as it
    is. *)
Theorem get_component_caches (group : string) (visual : bool)
    (s s1 : SimulatorInstance Pose) (c : nat) :
  get_component group visual s = Done c s1 ->
  components s1 !! group = Some c
  /\ (forall visual', get_component group visual' s1 = Done c s1)
  /\ (forall c', components s !! group = Some c' -> c = c' /\ s1 = s)
  /\ (components s !! group = None ->
      c = next_body (client s)
      /\ next_body (client s1) = S (next_body (client s))
      /\ components s1 = <[group := c]> (components s)
      /\ movable_objects s1 = movable_objects s
      /\ forall b, b < next_body (client s) ->
           body_pose (client s1) !! b = body_pose (client s) !! b).
Proof.
  intros Hrun.
  assert (Hcached : forall (s0 : SimulatorInstance Pose) c0 v,
             components s0 !! group = Some c0 -> get_component group v s0 = Done c0 s0).
  { intros s0 c0 v H0. unfold get_component, bind, get, ret. simpl.
    rewrite H0. simpl. by rewrite H0. }
  destruct (components s !! group) as [c'|] eqn:Hc.
  - rewrite (Hcached s c' visual Hc) in Hrun. injection Hrun as <- <-.
    split; [done|]. split; [intros v; by apply Hcached|].
    split; [by intros c0 [= <-]|done].
  - unfold get_component in Hrun. unfold bind at 1, get in Hrun.
    rewrite Hc in Hrun. unfold bind at 1 2 in Hrun.
    pose proof (get_group_subtree_pure group s) as Hpure.
    destruct (get_group_subtree group s) as [links s0|e s0]; [|done].
    simpl in Hpure. subst s0. unfold bind, get, modify, set_component in Hrun.
    simpl in Hrun. rewrite lookup_insert_eq in Hrun. injection Hrun as <- <-.
    simpl. split; [by rewrite lookup_insert_eq|].
    split; [intros v; apply Hcached; simpl; by rewrite lookup_insert_eq|].
    split; [done|]. intros _. repeat (split; [done|]).
    intros b Hb. destruct (body_pose (client s) !! robot s); [|done].
    apply lookup_insert_ne. lia.
Qed.

(** X13. Without a cached component, asking for the component of a name
    that is no group raises KeyError, asking for the component of a group
    that resolves to no joints raises IndexError, and asking for the
    joint mapping of any group raises AssertionError; the instance is
    left as it was each time and no body is created. *)
Theorem component_errors (group : string) (visual : bool) (s : SimulatorInstance Pose) :
  components s !! group = None ->
  (dict_get PANDA_GROUPS group = None ->
   get_component group visual s = Raised (KeyError group) s)
  /\ (forall names,
        dict_get PANDA_GROUPS group = Some names ->
        joints_from_names (robot s) names = [] ->
        get_component group visual s = Raised IndexError s)
  /\ get_component_mapping group s = Raised AssertionError s
  /\ get_component_joints group s = Raised AssertionError s.
Proof.
  intros Hc.
  unfold get_component, get_component_joints,
    get_component_mapping, get_group_subtree,
    get_group_parent, get_group_joints, item, bind, get, raise.
  rewrite Hc. split; [by intros ->|]. split; [|done].
  intros names -> Hj. by rewrite Hj.
Qed.

(** The dictionary built from a list of pairs holds, for a key, a value
    paired with it in the list, and nothing for a key the list lacks. *)
Lemma dict_of_pairs_lookup (pairs : list (nat * nat)) (j : nat) :
  (forall c, dict_of_pairs pairs !! j = Some c -> (j, c) ∈ pairs)
  /\ (dict_of_pairs pairs !! j = None <-> j ∉ pairs.*1)
  /\ (NoDup pairs.*1 -> forall c, (j, c) ∈ pairs -> dict_of_pairs pairs !! j = Some c).
Proof.
  unfold dict_of_pairs. split; [|split].
  - intros c H. apply elem_of_list_to_map_2 in H. by rewrite elem_of_reverse in H.
  - rewrite <- not_elem_of_list_to_map, fmap_reverse. by rewrite elem_of_reverse.
  - intros Hnd c Hc. apply elem_of_list_to_map_1.
    + by rewrite fmap_reverse, reverse_Permutation.
    + by rewrite elem_of_reverse.
Qed.

(** X14. When the joint list of a component is returned the instance is
    unchanged and the list has one entry for each joint of the group, in
    the group's joint order: the entry at the place of a joint is what the
    mapping from robot joints to component joints holds for that joint, a
    component joint paired with it by the backend, or None when the joint
    is paired with nothing. *)
Theorem get_component_joints_length (group : string) (s s1 : SimulatorInstance Pose)
    (l : list (option nat)) :
  get_component_joints group s = Done l s1 ->
  s1 = s
  /\ exists names component j0 pairs,
       dict_get PANDA_GROUPS group = Some names
       /\ components s !! group = Some component
       /\ joints_from_names (robot s) names !! 0 = Some j0
       /\ safe_zip (get_movable_joint_descendants (robot s) (get_link_parent (robot s) j0))
                    (get_movable_joints component) = inr pairs
       /\ length l = length (joints_from_names (robot s) names)
       /\ l = map (fun j => dict_of_pairs pairs !! j) (joints_from_names (robot s) names)
       /\ (forall k j, joints_from_names (robot s) names !! k = Some j ->
             l !! k = Some (dict_of_pairs pairs !! j)
             /\ (forall c, l !! k = Some (Some c) -> (j, c) ∈ pairs)
             /\ (l !! k = Some None <-> j ∉ pairs.*1)).
Proof.
  unfold get_component_joints, get_component_mapping,
    get_group_parent, get_group_joints, item, bind, get, ret, raise.
  destruct (components s !! group) as [component|]; [|done].
  destruct (dict_get PANDA_GROUPS group) as [names|]; [|done]. simpl.
  destruct (joints_from_names (robot s) names !! 0) as [j0|] eqn:Hj0; [|done]. simpl.
  destruct (safe_zip _ _) as [e|pairs] eqn:Hzip; [done|]. simpl.
  intros [= <- <-]. split; [done|]. exists names, component, j0, pairs.
  do 4 (split; [done|]). split; [by rewrite length_map|]. split; [done|].
  intros k j Hk. rewrite list_lookup_fmap, Hk. simpl.
  destruct (dict_of_pairs_lookup pairs j) as (H1 & H2 & _).
  split; [done|]. split.
  - intros c [= Hc]. by apply H1.
  - rewrite <- H2. split; [by intros [= ->]|by intros ->].
Qed.

End ComponentsMore.

Section FromBelief.

Context {Pose : Type} {backend : Backend Pose}.

Lemma add_object_fold (objs : list (ObjectState Pose)) (acc : list nat) (w : World Pose) :
  let r := fold_left add_object objs (acc, w) in
  r.2 = fold_left (fun w o => set_pose (create_object o w).1 (pose o)
                                       (create_object o w).2) objs w
  /\ length r.1 = length acc + length objs
  /\ (Forall (fun o => create_object o = create_box) objs ->
      r.1 = acc ++ seq (next_body w) (length objs)).
Proof.
  revert acc w. induction objs as [|o objs IH]; intros acc w.
  - simpl. split; [done|]. split; [lia|]. intros _. by rewrite app_nil_r.
  - simpl fold_left. unfold add_object at 2. simpl.
    destruct (IH (acc ++ [(create_object o w).1])
                 (set_pose (create_object o w).1 (pose o) (create_object o w).2))
      as (H1 & H2 & H3).
    cbv zeta in *. split; [done|]. split.
    + rewrite H2, length_app. simpl. lia.
    + intros [Ho Hobjs]%Forall_cons. rewrite (H3 Hobjs). rewrite Ho. simpl.
      by rewrite <- app_assoc.
Qed.

(** The bodies collected so far stay at the front of the tracked list,
    and the body tracked for the k-th object state is the one its factory
    returned on the session the first k object states left. *)
Lemma add_object_prefix (objs : list (ObjectState Pose)) (acc : list nat) (w : World Pose) :
  exists l, (fold_left add_object objs (acc, w)).1 = acc ++ l.
Proof.
  revert acc w. induction objs as [|o objs IH]; intros acc w.
  - exists []. simpl. by rewrite app_nil_r.
  - simpl fold_left. unfold add_object at 2. simpl.
    destruct (IH (acc ++ [(create_object o w).1])
                 (set_pose (create_object o w).1 (pose o) (create_object o w).2))
      as [l Hl].
    exists ((create_object o w).1 :: l). rewrite Hl. by rewrite <- app_assoc.
Qed.

Lemma add_object_ids (objs : list (ObjectState Pose)) (acc : list nat) (w : World Pose)
    (k : nat) (o : ObjectState Pose) :
  objs !! k = Some o ->
  (fold_left add_object objs (acc, w)).1 !! (length acc + k)
  = Some (create_object o
            (fold_left (fun w o => set_pose (create_object o w).1 (pose o)
                                            (create_object o w).2)
                       (take k objs) w)).1.
Proof.
  revert acc w k. induction objs as [|o' objs IH]; intros acc w k Hk; [done|].
  simpl fold_left at 1. unfold add_object at 2. simpl.
  destruct k as [|k]; simpl in Hk.
  - injection Hk as ->. simpl.
    destruct (add_object_prefix objs (acc ++ [(create_object o w).1])
                (set_pose (create_object o w).1 (pose o) (create_object o w).2))
      as [l ->].
    rewrite <- app_assoc, Nat.add_0_r. rewrite lookup_app_r by lia.
    by rewrite Nat.sub_diag.
  - simpl take. simpl fold_left.
    rewrite <- (IH (acc ++ [(create_object o' w).1])
                   (set_pose (create_object o' w).1 (pose o') (create_object o' w).2)
                   k Hk).
    f_equal. rewrite length_app. simpl. lia.
Qed.

(** The instance [from_belief] builds and what it tracks. *)
Lemma from_belief_tracking (belief : WorldBelief Pose) :
  let w0 := set_pose (create_box (load_pybullet BulletClient).2).1 TABLE_POSE
                     (create_box (load_pybullet BulletClient).2).2 in
  (length (robot_state belief) <> length ARM_JOINT_NAMES ->
   from_belief belief = inl AssertionError)
  /\ (length (robot_state belief) = length ARM_JOINT_NAMES ->
      exists instance,
        from_belief belief = inr instance
        /\ robot instance = 0 /\ table instance = 1
        /\ real_robot instance = false /\ sender instance = []
        /\ components instance = ∅
        /\ length (movable_objects instance) = length (object_states belief)
        /\ (forall i o, object_states belief !! i = Some o ->
              is_Some (movable_objects instance !! i))
        /\ (forall k o, object_states belief !! k = Some o ->
              movable_objects instance !! k
              = Some (create_object o
                        (fold_left (fun w o => set_pose (create_object o w).1 (pose o)
                                                        (create_object o w).2)
                                   (take k (object_states belief)) w0)).1)
        /\ exists s', set_belief belief instance = Done tt s').
Proof.
  intros w0. unfold from_belief. unfold bind. fold w0.
  set (placed := fold_left add_object (object_states belief) ([], w0)).
  set (inst0 := mkSim placed.2 _ _ placed.1 ∅ false []).
  destruct (gripper_result inst0) as [Hc Ho].
  assert (Hgrip : exists w, (if gripper_open belief then open_gripper else close_gripper) inst0
                            = Done tt (mkSim w 0 1 placed.1 ∅ false [])).
  { destruct (gripper_open belief); eexists; [rewrite Ho|rewrite Hc]; reflexivity. }
  destruct Hgrip as [w ->]. change arm_group with ARM_GROUP. split.
  - intros Hq. by rewrite set_arm_positions_refused.
  - intros Hq. rewrite set_arm_positions_step by done. simpl.
    assert (Hlen : length placed.1 = length (object_states belief)).
    { subst placed. by destruct (add_object_fold (object_states belief) [] w0)
        as (_ & -> & _). }
    eexists. split; [done|]. simpl. do 5 (split; [done|]). split; [exact Hlen|].
    split; [|split].
    + intros i o Hi. apply lookup_lt_is_Some. rewrite Hlen. by eapply lookup_lt_Some.
    + intros k o Hk. subst placed.
      by rewrite <- (add_object_ids (object_states belief) [] w0 k o Hk).
    + match goal with
      | |- exists s', set_belief belief ?inst = _ =>
          destruct (set_belief_cases belief inst) as (_ & _ & H)
      end.
      destruct (H (eq_sym Hlen) Hq) as (s' & Hs' & _). by exists s'.
Qed.

(** X15. [from_belief] raises AssertionError when the robot state of the
    belief does not have one value per arm joint.  Otherwise it returns a
    simulated instance (not bound to hardware, nothing sent, empty
    component cache) whose robot and table are the first two bodies of a
    new session and which tracks exactly one body per object state of the
    belief, in order: the body tracked at the place of an object state is
    the one the factory of that object state returned, called on the
    session left by the object states before it.  So every index of a
    belief object is a valid index of the tracked list, and [set_belief]
    with the same belief passes its assertion and completes. *)
Theorem from_belief_tracks_every_object (belief : WorldBelief Pose) :
  let w0 := set_pose (create_box (load_pybullet BulletClient).2).1 TABLE_POSE
                     (create_box (load_pybullet BulletClient).2).2 in
  (length (robot_state belief) <> length ARM_JOINT_NAMES ->
   from_belief belief = inl AssertionError)
  /\ (length (robot_state belief) = length ARM_JOINT_NAMES ->
      exists instance,
        from_belief belief = inr instance
        /\ robot instance = 0 /\ table instance = 1
        /\ real_robot instance = false /\ sender instance = []
        /\ components instance = ∅
        /\ length (movable_objects instance) = length (object_states belief)
        /\ (forall i o, object_states belief !! i = Some o ->
              is_Some (movable_objects instance !! i))
        /\ (forall k o, object_states belief !! k = Some o ->
              movable_objects instance !! k
              = Some (create_object o
                        (fold_left (fun w o => set_pose (create_object o w).1 (pose o)
                                                        (create_object o w).2)
                                   (take k (object_states belief)) w0)).1)
        /\ exists s', set_belief belief instance = Done tt s').
Proof. exact (from_belief_tracking belief). Qed.

(** X16. With [create_box] factories (as in the shipped perception) and
    a robot state of one value per arm joint, the instance built from a
    belief tracks the bodies 2, 3, ... and every tracked body is at the
    pose of its object state; the robot is at the identity pose and the
    table at TABLE_POSE. *)
Theorem from_belief_places_objects (belief : WorldBelief Pose) :
  Forall (fun o => create_object o = create_box) (object_states belief) ->
  length (robot_state belief) = length ARM_JOINT_NAMES ->
  exists instance,
    from_belief belief = inr instance
    /\ movable_objects instance = seq 2 (length (object_states belief))
    /\ next_body (client instance) = 2 + length (object_states belief)
    /\ body_pose (client instance) !! 0 = Some unit_pose
    /\ body_pose (client instance) !! 1 = Some TABLE_POSE
    /\ forall k o, object_states belief !! k = Some o ->
         movable_objects instance !! k = Some (2 + k)
         /\ body_pose (client instance) !! (2 + k) = Some (pose o).
Proof.
  intros Hbox Hq. unfold from_belief. unfold bind.
  set (w0 := set_pose (create_box (load_pybullet BulletClient).2).1 TABLE_POSE
                      (create_box (load_pybullet BulletClient).2).2).
  destruct (add_object_fold (object_states belief) [] w0) as (Hw & _ & Hids).
  specialize (Hids Hbox). cbv zeta in Hw, Hids.
  destruct (create_box_fold (object_states belief) w0 Hbox) as (Hn & Hold & Hnew).
  cbv zeta in Hn, Hold, Hnew. rewrite <- Hw in Hn, Hold, Hnew.
  set (placed := fold_left add_object (object_states belief) ([], w0)) in *.
  set (inst0 := mkSim placed.2 _ _ placed.1 ∅ false []).
  destruct (gripper_result inst0) as [Hc Ho].
  assert (Hgoal : forall w : World Pose,
             body_pose w = body_pose placed.2 -> next_body w = next_body placed.2 ->
             placed.1 = seq 2 (length (object_states belief))
             /\ next_body w = 2 + length (object_states belief)
             /\ body_pose w !! 0 = Some unit_pose
             /\ body_pose w !! 1 = Some TABLE_POSE
             /\ forall k o, object_states belief !! k = Some o ->
                  placed.1 !! k = Some (2 + k)
                  /\ body_pose w !! (2 + k) = Some (pose o)).
  { intros w -> ->. split; [exact Hids|]. split; [exact Hn|].
    split; [rewrite Hold by (simpl; lia); reflexivity|].
    split; [rewrite Hold by (simpl; lia); reflexivity|].
    intros k o Hk. split; [|by apply (Hnew k o)].
    rewrite Hids. simpl. apply lookup_seq. split; [done|]. by eapply lookup_lt_Some. }
  destruct (gripper_open belief).
  - rewrite Ho. change arm_group with ARM_GROUP. rewrite set_arm_positions_step by done.
    simpl. eexists. split; [done|]. simpl. by apply Hgoal.
  - rewrite Hc. change arm_group with ARM_GROUP. rewrite set_arm_positions_step by done.
    simpl. eexists. split; [done|]. simpl. by apply Hgoal.
Qed.

End FromBelief.

(** ** Invariants of the loop, the end of the run and the scenario *)

Section LoopMore.

Context {Pose : Type} {backend : Backend Pose}.
Variable Stats : Type.
Variable json_dumps : Stats -> string.
Variable get_pick_place_plan :
  SimulatorInstance Pose -> WorldBelief Pose -> nat -> Pose ->
  (option (Command Pose) * Stats) * SimulatorInstance Pose.

Local Abbreviation process_goal := (process_goal Stats json_dumps get_pick_place_plan).
Local Abbreviation main_loop := (main_loop Stats json_dumps get_pick_place_plan).
Local Abbreviation rearrange := (rearrange Stats json_dumps get_pick_place_plan).
Local Abbreviation main := (main Stats json_dumps get_pick_place_plan).

(** X17. When the matched belief object has an index the twin instance
    does not track, an iteration that needs planning raises IndexError
    before the strategy is called: nothing is changed or printed. *)
Theorem untracked_object_raises (g : ObjectState Pose) (s : MainState Pose)
    (i : nat) (o : ObjectState Pose) :
  matching_objects (category g) (object_states (belief s)) !! 0 = Some (i, o) ->
  exceeds_tolerance (get_pose_distance (pose o) (pose g)) = true ->
  length (movable_objects (twin_sim_instance s)) <= i ->
  process_goal g s = Raised IndexError s.
Proof.
  intros Hm He Hi. apply lookup_ge_None in Hi.
  unfold process_goal, bind, get, item, ret, raise. rewrite Hm. simpl.
  by rewrite He, Hi.
Qed.

Lemma map_alter_invariant {A B} (f : A -> A) (h : A -> B) (i : nat) (l : list A) :
  (forall x, h (f x) = h x) -> map h (alter f i l) = map h l.
Proof.
  intros Hf. revert i. induction l as [|x l IH]; intros [|i]; simpl; try done.
  - by rewrite Hf.
  - f_equal. apply IH.
Qed.

Lemma process_goal_invariants (g : ObjectState Pose) (s : MainState Pose) :
  let s' := final_state (process_goal g s) in
  map category (object_states (belief s')) = map category (object_states (belief s))
  /\ map create_object (object_states (belief s'))
     = map create_object (object_states (belief s))
  /\ gripper_open (belief s') = gripper_open (belief s)
  /\ sim_instance s' = sim_instance s
  /\ plan_components s `prefix_of` plan_components s'
  /\ planner_calls s `prefix_of` planner_calls s'
  /\ stdout s `prefix_of` stdout s'.
Proof.
  unfold process_goal, bind, get, item, ret, raise.
  destruct (matching_objects _ _ !! 0) as [[i o]|]; simpl; [|done].
  destruct (exceeds_tolerance _); [|done].
  destruct (movable_objects _ !! i) as [b|]; simpl; [|done].
  unfold call_planner. simpl.
  destruct (get_pick_place_plan _ _ _ _) as [[[sp|] st] tw]; simpl.
  - unfold attr_commands, attr_path, last_item, set_belief_of, append_plan_component,
      modify, ret, raise.
    repeat (case_match; simplify_eq/=);
      (split; [by apply map_alter_invariant|]);
      (split; [by apply map_alter_invariant|]);
      repeat (split; [done || apply prefix_app_r; done|]);
      done || (apply prefix_app_r; done).
  - repeat (split; [done || apply prefix_app_r; done|]).
    rewrite <- app_assoc. by apply prefix_app_r.
Qed.

(** What the loop preserves, over any list of goal objects. *)
Lemma main_loop_preserves (goals : list (ObjectState Pose)) (s : MainState Pose) :
  let s' := final_state (main_loop goals s) in
  map category (object_states (belief s')) = map category (object_states (belief s))
  /\ map create_object (object_states (belief s'))
     = map create_object (object_states (belief s))
  /\ gripper_open (belief s') = gripper_open (belief s)
  /\ sim_instance s' = sim_instance s
  /\ plan_components s `prefix_of` plan_components s'
  /\ planner_calls s `prefix_of` planner_calls s'
  /\ stdout s `prefix_of` stdout s'.
Proof.
  revert s. induction goals as [|g goals IH]; intros s; [done|].
  unfold main_loop in *. simpl for_each. unfold bind.
  pose proof (process_goal_invariants g s) as Hg.
  destruct (process_goal g s) as [[] s1|e s1]; simpl in Hg; [|exact Hg].
  destruct Hg as (G1 & G2 & G3 & G4 & G5 & G6 & G7).
  destruct (IH s1) as (H1 & H2 & H3 & H4 & H5 & H6 & H7).
  cbv zeta. rewrite H1, H2, H3, H4.
  repeat (split; [done|]).
  split; [by etrans|]. split; by etrans.
Qed.

(** X18. However the loop ends, it never changes the categories or the
    factories of the belief's objects (so neither their number nor their
    order), nor the gripper flag, and never touches the primary instance;
    the list of sub-plans, the record of strategy calls and the printed
    lines only ever grow at the end. *)
Theorem main_loop_invariants (goals : list (ObjectState Pose)) (s : MainState Pose) :
  let s' := final_state (main_loop goals s) in
  map category (object_states (belief s')) = map category (object_states (belief s))
  /\ map create_object (object_states (belief s'))
     = map create_object (object_states (belief s))
  /\ gripper_open (belief s') = gripper_open (belief s)
  /\ sim_instance s' = sim_instance s
  /\ plan_components s `prefix_of` plan_components s'
  /\ planner_calls s `prefix_of` planner_calls s'
  /\ stdout s `prefix_of` stdout s'.
Proof. exact (main_loop_preserves goals s). Qed.

Lemma process_goal_done (g : ObjectState Pose) (s s' : MainState Pose) :
  process_goal g s = Done tt s' ->
  stdout s' = stdout s
  /\ (s' = s
      \/ exists sp call,
           plan_components s' = plan_components s ++ [sp]
           /\ planner_calls s' = planner_calls s ++ [call]).
Proof.
  unfold process_goal, bind, get, item, ret, raise.
  destruct (matching_objects _ _ !! 0) as [[i o]|]; simpl; [|done].
  destruct (exceeds_tolerance _); [|intros [= <-]; by split; [|left]].
  destruct (movable_objects _ !! i) as [b|]; simpl; [|done].
  unfold call_planner. simpl.
  destruct (get_pick_place_plan _ _ _ _) as [[[sp|] st] tw]; simpl; [|done].
  unfold attr_commands, attr_path, last_item, set_belief_of, append_plan_component,
    modify, ret, raise.
  repeat (case_match; simplify_eq/=); try done.
  intros [= <-]. simpl. split; [done|]. right. by eexists _, _.
Qed.

(** X19. When the loop completes, nothing was printed, and the sub-plans
    collected are one per call of the strategy: the list of sub-plans and
    the record of calls have grown by the same number of entries. *)
Theorem main_loop_collects_one_plan_per_call (goals : list (ObjectState Pose))
    (s s' : MainState Pose) :
  main_loop goals s = Done tt s' ->
  stdout s' = stdout s
  /\ length (plan_components s') + length (planner_calls s)
     = length (plan_components s) + length (planner_calls s')
  /\ length (planner_calls s') <= length (planner_calls s) + length goals.
Proof.
  revert s. induction goals as [|g goals IH]; intros s.
  - intros [= <-]. simpl. split; [done|]. lia.
  - unfold main_loop in *. simpl for_each. unfold bind.
    destruct (process_goal g s) as [[] s1|e s1] eqn:Hg; [|done].
    intros Hrest. destruct (IH s1 Hrest) as (H1 & H2 & H3).
    destruct (process_goal_done g s s1 Hg) as (G1 & [->|(sp & call & Gp & Gc)]).
    + split; [done|]. simpl. lia.
    + rewrite H1, G1. split; [done|].
      rewrite Gp, Gc, !length_app in *. simpl in *. lia.
Qed.

(** The run ends in an exception either way. *)
Lemma rearrange_raises (goal_belief : WorldBelief Pose) (s : MainState Pose) :
  exists e s',
    rearrange goal_belief s = Raised e s'
    /\ sim_instance s' = sim_instance s
    /\ (forall s1, main_loop (object_states goal_belief) s = Done tt s1 ->
          e = AttributeError "execute_command" /\ s' = s1
          /\ exit_status (rearrange goal_belief s) = 1%Z)
    /\ (forall e1 s1, main_loop (object_states goal_belief) s = Raised e1 s1 ->
          e = e1 /\ s' = s1).
Proof.
  unfold rearrange, bind, get, raise.
  destruct (main_loop_preserves (object_states goal_belief) s) as (_ & _ & _ & Hsim & _).
  destruct (main_loop (object_states goal_belief) s) as [[] s1|e1 s1]; simpl in *.
  - exists (AttributeError "execute_command"), s1. split; [done|]. split; [done|].
    split; [by intros s2 [= <-]|done].
  - exists e1, s1. split; [done|]. split; [done|]. split; [done|].
    by intros e2 s2 [= <- <-].
Qed.

(** X20. The run never returns normally and never commands the primary
    instance: when the loop raises, that exception ends the run; when the
    loop completes, handing the plan to [execute_command], which the
    instance does not have, raises AttributeError, so the collected plan
    is not executed and the process ends with status 1. *)
Theorem rearrange_never_executes (goal_belief : WorldBelief Pose) (s : MainState Pose) :
  exists e s',
    rearrange goal_belief s = Raised e s'
    /\ sim_instance s' = sim_instance s
    /\ (forall s1, main_loop (object_states goal_belief) s = Done tt s1 ->
          e = AttributeError "execute_command" /\ s' = s1
          /\ exit_status (rearrange goal_belief s) = 1%Z)
    /\ (forall e1 s1, main_loop (object_states goal_belief) s = Raised e1 s1 ->
          e = e1 /\ s' = s1).
Proof. exact (rearrange_raises goal_belief s). Qed.

Lemma match_exists_iff (cat : string) (objs : list (ObjectState Pose)) :
  (exists i o, matching_objects cat objs !! 0 = Some (i, o)) <-> cat ∈ map category objs.
Proof.
  split.
  - intros (i & o & H). apply first_match_spec in H as (Hi & <- & _).
    apply list_elem_of_fmap. exists o. split; [done|]. by eapply list_elem_of_lookup_2.
  - intros Hin. destruct (matching_objects cat objs !! 0) as [[i o]|] eqn:E; [by eauto|].
    exfalso. apply list_elem_of_fmap in Hin as (o & -> & Ho).
    by apply (proj1 (no_match_spec _ _) E o).
Qed.

(** The two outcomes of [dummy_get_goal], by the number of objects. *)
Lemma dummy_get_goal_cases (b : WorldBelief Pose) :
  (length (object_states b) < 2 -> dummy_get_goal b = inl IndexError)
  /\ (forall o0 o1 rest,
        object_states b = o0 :: o1 :: rest ->
        exists goal,
          dummy_get_goal b = inr goal
          /\ object_states goal
             = mkObjectState (create_object o0)
                 (multiply2 (Pose_ (Point_x 0.1) unit_euler) (pose o0)) (category o0)
               :: mkObjectState (create_object o1)
                    (multiply2 (Pose_ (Point_x (-0.1)) unit_euler) (pose o1)) (category o1)
               :: rest
          /\ robot_state goal = robot_state b
          /\ gripper_open goal = gripper_open b
          /\ forall g, g ∈ object_states goal ->
               exists i o,
                 matching_objects (category g) (object_states b) !! 0 = Some (i, o)).
Proof.
  unfold dummy_get_goal, shift_object, set_object_pose. split.
  - destruct (object_states b) as [|o0 [|o1 rest]]; simpl; [done|done|lia].
  - intros o0 o1 rest ->. simpl. eexists. split; [done|]. simpl.
    split; [done|]. split; [done|]. split; [done|].
    intros g Hg. apply match_exists_iff. simpl.
    apply elem_of_cons in Hg as [->|Hg]; [apply elem_of_cons; by left|].
    apply elem_of_cons in Hg as [->|Hg];
      [apply elem_of_cons; right; apply elem_of_cons; by left|].
    do 2 (apply elem_of_cons; right). apply list_elem_of_fmap. by exists g.
Qed.

(** X21. [dummy_get_goal] needs two object states: on a belief with
    fewer it raises IndexError.  Otherwise the goal has the same robot
    state and gripper flag and the same objects with the same categories
    and factories, the first shifted by 0.1 and the second by -0.1 along
    x, the rest unchanged; hence every goal object finds a belief object
    of its category. *)
Theorem dummy_get_goal_outcome (b : WorldBelief Pose) :
  (length (object_states b) < 2 -> dummy_get_goal b = inl IndexError)
  /\ (forall o0 o1 rest,
        object_states b = o0 :: o1 :: rest ->
        exists goal,
          dummy_get_goal b = inr goal
          /\ object_states goal
             = mkObjectState (create_object o0)
                 (multiply2 (Pose_ (Point_x 0.1) unit_euler) (pose o0)) (category o0)
               :: mkObjectState (create_object o1)
                    (multiply2 (Pose_ (Point_x (-0.1)) unit_euler) (pose o1)) (category o1)
               :: rest
          /\ robot_state goal = robot_state b
          /\ gripper_open goal = gripper_open b
          /\ forall g, g ∈ object_states goal ->
               exists i o,
                 matching_objects (category g) (object_states b) !! 0 = Some (i, o)).
Proof. exact (dummy_get_goal_cases b). Qed.

(** X22. With the goal made by [dummy_get_goal] from the belief the loop
    starts on, no iteration fails at the category lookup, however many
    objects were re-planned before it: the object matched is always
    found. *)
Theorem dummy_goal_always_matches (b goal : WorldBelief Pose) (s s1 : MainState Pose)
    (pre post : list (ObjectState Pose)) (g : ObjectState Pose) :
  dummy_get_goal b = inr goal ->
  belief s = b ->
  object_states goal = pre ++ g :: post ->
  main_loop pre s = Done tt s1 ->
  exists i o,
    matching_objects (category g) (object_states (belief s1)) !! 0 = Some (i, o).
Proof.
  intros Hgoal <- Hsplit Hpre.
  destruct (main_loop_preserves pre s) as (Hcat & _). rewrite Hpre in Hcat.
  simpl in Hcat. apply match_exists_iff. rewrite Hcat. apply match_exists_iff.
  destruct (dummy_get_goal_cases (belief s)) as [Hshort Hlong].
  destruct (object_states (belief s)) as [|o0 [|o1 rest]] eqn:Hobjs.
  - rewrite Hshort in Hgoal by (simpl; lia). done.
  - rewrite Hshort in Hgoal by (simpl; lia). done.
  - destruct (Hlong o0 o1 rest eq_refl) as (goal' & Hg' & _ & _ & _ & Hall).
    rewrite Hgoal in Hg'. injection Hg' as <-.
    apply Hall. rewrite Hsplit. apply elem_of_app. right. apply elem_of_cons. by left.
Qed.

(** X23. [main] never returns normally.  With both display flags set it
    stops at its assertion before any simulator is created.  Otherwise the
    two instances are built from the perceived belief, the run ends in an
    exception (at the latest the AttributeError of the final dispatch),
    and the primary instance is still exactly the one [from_belief]
    returned: no command was ever executed on it. *)
Theorem main_never_returns (vis_belief vis_sim : bool) :
  (vis_belief = true -> vis_sim = true ->
   main vis_belief vis_sim = inl AssertionError)
  /\ (vis_belief && vis_sim = false ->
      exists instance e s',
        from_belief dummy_perception = inr instance
        /\ main vis_belief vis_sim = inr (Raised e s')
        /\ sim_instance s' = instance).
Proof.
  unfold main.
  destruct (dummy_get_goal_cases dummy_perception) as [_ Hgoal].
  destruct (Hgoal _ _ _ eq_refl) as (goal & -> & _).
  destruct (from_belief_tracking dummy_perception) as (_ & Hbuilt).
  destruct (Hbuilt eq_refl) as (instance & Hinst & _).
  rewrite Hinst. split.
  - by intros -> ->.
  - intros ->.
    destruct (rearrange_raises goal (mkMain dummy_perception [] instance instance [] []))
      as (e & s' & Hrun & Hsim & _).
    exists instance, e, s'. split; [done|]. by rewrite Hrun.
Qed.

End LoopMore.

(** ** Runs of the further properties on the symbolic backend *)

(** Witness for X1: "legs" is no group. *)
Lemma unknown_group_raises_KeyError_witness :
  get_group_joints "legs" sym_sim = Raised (KeyError "legs") sym_sim
  /\ set_group_positions "legs" [0.5%float] sym_sim = Raised (KeyError "legs") sym_sim.
Proof.
  destruct (unknown_group_raises_KeyError "legs" [0.5%float] sym_sim)
    as (H1 & _ & _ & H4); [discriminate | discriminate | discriminate |].
  split; [exact H1 | exact H4].
Defined.

(** Witness for X2: on the hardware-bound symbolic session a path of one
    arm configuration is forwarded and then sent as a position path; a
    path whose second waypoint has one value stops there, with the first
    waypoint forwarded and no position path sent. *)
Lemma command_trajectory_sender_log_witness :
  (exists s',
     command_trajectory [sym_final_conf] sym_real_sim = Done tt s'
     /\ sender s' = [HwCommandArm sym_final_conf;
                     HwExecutePositionPath [named_position sym_final_conf]])
  /\ exists s',
       command_trajectory [sym_final_conf; [0.5%float]; sym_final_conf] sym_real_sim
       = Raised AssertionError s'
       /\ sender s' = [HwCommandArm sym_final_conf].
Proof.
  split.
  - destruct (command_trajectory_sender_log [sym_final_conf] sym_real_sim) as (H & _).
    destruct H as (H1 & _ & H3); [repeat constructor|].
    eexists. split; [exact H1 | exact H3].
  - destruct (command_trajectory_sender_log [sym_final_conf; [0.5%float]; sym_final_conf]
                sym_real_sim) as (_ & H & _).
    destruct (H [sym_final_conf] [0.5%float] [sym_final_conf]) as (H1 & _ & H3);
      [reflexivity | repeat constructor | discriminate |].
    eexists. split; [exact H1 | exact H3].
Defined.

(** Witness for X4: the hardware-bound symbolic session. *)
Lemma gripper_hardware_log_witness :
  exists s1 s2,
    close_gripper sym_real_sim = Done tt s1
    /\ sender s1 = [HwCommandArm [0%float; 0%float]; HwCloseGripper]
    /\ open_gripper sym_real_sim = Done tt s2
    /\ sender s2 = [HwCommandArm [0.04%float; 0.04%float]; HwOpenGripper].
Proof.
  destruct (gripper_hardware_log sym_real_sim)
    as (s1 & s2 & H1 & H2 & _ & _ & H3 & H4 & _); [reflexivity|].
  exists s1, s2. split; [exact H1|]. split; [exact H2|]. split; [exact H3 | exact H4].
Defined.

(** Witness for X5: a nested tree of two trajectories of arm
    configurations completes; the pick-and-place plan, which holds grasp
    leaves, does not, and neither does a trajectory with a waypoint of one
    value. *)
Lemma execute_sequence_completes_iff_witness :
  (exists s',
     execute_sequence
       [Sequence [CTrajectory (sym_trajectory [[0.1; 0; 0; 0; 0; 0; 0]%float] []);
                  Sequence [CTrajectory (sym_trajectory [sym_final_conf] [])] None] None]
       sym_sim = Done tt s')
  /\ ~ (exists s', execute_sequence [sym_pick_place 2] sym_sim = Done tt s')
  /\ ~ (exists s', execute_sequence [CTrajectory (sym_trajectory [[0.5%float]] [])] sym_sim
                   = Done tt s').
Proof.
  split; [|split].
  - apply execute_sequence_completes_iff.
    repeat (constructor; [eexists; split; [reflexivity | repeat constructor]|]).
    constructor.
  - intros H. apply execute_sequence_completes_iff in H.
    apply Forall_cons in H as [_ H]. apply Forall_cons in H as [(t & Ht & _) _].
    discriminate Ht.
  - intros H. apply execute_sequence_completes_iff in H.
    apply Forall_cons in H as [(t & [= <-] & Ht) _].
    apply Forall_cons in Ht as [Ht _]. discriminate Ht.
Defined.

(** Witness for X7: the one-box belief on a session tracking nothing and
    on the session tracking the box, and the same belief with a robot
    state of one value. *)
Lemma set_belief_outcome_witness :
  set_belief sym_belief sym_empty_sim = Raised AssertionError sym_empty_sim
  /\ (exists s', set_belief sym_belief sym_sim = Done tt s'
                 /\ movable_objects s' = [2])
  /\ exists s', set_belief (mkWorldBelief [sym_red_box 0.3] [0.5%float] true) sym_sim
                = Raised AssertionError s'
                /\ next_body (client s') = 4.
Proof.
  split; [|split].
  - destruct (set_belief_outcome sym_belief sym_empty_sim) as [H _].
    apply H. simpl. lia.
  - destruct (set_belief_outcome sym_belief sym_sim) as (_ & _ & H).
    destruct (H eq_refl eq_refl) as (s' & Hs' & _ & Hm & _).
    exists s'. split; [exact Hs' | exact Hm].
  - destruct (set_belief_outcome (mkWorldBelief [sym_red_box 0.3] [0.5%float] true) sym_sim)
      as (_ & H & _).
    eexists. split; [apply H; [reflexivity | discriminate] | reflexivity].
Defined.

(** Witness for X8. *)
Lemma set_belief_adds_bodies_witness :
  let s' := final_state (set_belief sym_belief sym_sim) in
  set_belief sym_belief sym_sim = Done tt s'
  /\ next_body (client s') = 4
  /\ body_pose (client s') !! 2 = Some [].
Proof.
  intros s'.
  destruct (set_belief_adds_bodies sym_belief sym_sim) as (Hn & Hold & _ & Hdone);
    [reflexivity | repeat constructor |].
  split; [apply Hdone; reflexivity|]. split; [exact Hn|].
  transitivity (body_pose (client sym_sim) !! 2); [apply Hold; simpl; lia | reflexivity].
Defined.

(** Witness for X9: the arm group of the symbolic robot. *)
Lemma set_then_get_group_positions_witness :
  exists s',
    set_group_positions "main_arm" sym_final_conf sym_real_sim = Done tt s'
    /\ get_group_positions "main_arm" s' = Done sym_final_conf s'.
Proof.
  apply (set_then_get_group_positions "main_arm" ARM_JOINT_NAMES sym_final_conf sym_real_sim);
    [reflexivity | exact (NoDup_seq 0 7) | reflexivity].
Defined.

(** Witness for X10. *)
Lemma gen_fn_outcome_witness :
  exists g, gen_fn 2 sym_sim = Done g sym_sim
            /\ closed_position g = (0 * (1 + 5e-2))%float.
Proof.
  destruct (gen_fn_outcome 2 sym_sim) as [_ H].
  destruct (H 0%float [0%float]) as (g & Hg & Hc & _); [reflexivity|].
  exists g. split; [exact Hg | exact Hc].
Defined.

(** Witness for X11: a configuration of the seven arm joints stored for
    another robot id, assigned on the hardware-bound session. *)
Lemma Conf_assign_is_silent_witness :
  exists s1, Conf_assign (mkConf 7 [0; 1; 2; 3; 4; 5; 6] sym_final_conf) sym_real_sim
             = Done tt s1
             /\ sender s1 = [].
Proof.
  destruct (Conf_assign_is_silent (mkConf 7 [0; 1; 2; 3; 4; 5; 6] sym_final_conf)
              sym_real_sim) as [H _]; [reflexivity|].
  destruct H as (s1 & s2 & H1 & _ & _ & H4 & _); [reflexivity|].
  exists s1. split; [exact H1 | exact H4].
Defined.

(** Witness for X12: the arm component is cloned as body 3 and a second
    call returns it again. *)
Lemma get_component_caches_witness :
  let s1 := final_state (get_component sym_link_parent sym_link_subtree
                                       "main_arm" true sym_sim) in
  get_component sym_link_parent sym_link_subtree "main_arm" false s1 = Done 3 s1
  /\ next_body (client s1) = 4.
Proof.
  intros s1.
  destruct (get_component_caches sym_link_parent sym_link_subtree "main_arm" true
              sym_sim s1 3) as (_ & Hagain & _ & Hnew); [vm_compute; reflexivity|].
  split; [apply Hagain|].
  destruct Hnew as (_ & Hn & _); [reflexivity | exact Hn].
Defined.

(** Witness for X13: no group "legs", no joints in "base", and no
    mapping before the component exists. *)
Lemma component_errors_witness :
  get_component sym_link_parent sym_link_subtree "legs" true sym_sim
  = Raised (KeyError "legs") sym_sim
  /\ get_component sym_link_parent sym_link_subtree "base" true sym_sim
     = Raised IndexError sym_sim
  /\ get_component_mapping sym_link_parent sym_movable_joints sym_joint_descendants
       sym_safe_zip "main_gripper" sym_sim
     = Raised AssertionError sym_sim.
Proof.
  split; [|split].
  - destruct (component_errors sym_link_parent sym_link_subtree sym_movable_joints
                sym_joint_descendants sym_safe_zip "legs" true sym_sim) as (H & _);
      [reflexivity|]. apply H. reflexivity.
  - destruct (component_errors sym_link_parent sym_link_subtree sym_movable_joints
                sym_joint_descendants sym_safe_zip "base" true sym_sim) as (_ & H & _);
      [reflexivity|]. apply (H []); reflexivity.
  - destruct (component_errors sym_link_parent sym_link_subtree sym_movable_joints
                sym_joint_descendants sym_safe_zip "main_gripper" true sym_sim)
      as (_ & _ & H & _); [reflexivity|]. exact H.
Defined.

(** Witness for X14: the gripper component, once created, maps both
    finger joints, in the order of the group. *)
Lemma get_component_joints_length_witness :
  let s1 := final_state (get_component sym_link_parent sym_link_subtree
                                       "main_gripper" true sym_sim) in
  exists l pairs,
    get_component_joints sym_link_parent sym_movable_joints sym_joint_descendants
      sym_safe_zip "main_gripper" s1 = Done l s1
    /\ length l = 2
    /\ l = map (fun j => dict_of_pairs pairs !! j) [9; 10].
Proof.
  intros s1.
  set (r := get_component_joints sym_link_parent sym_movable_joints sym_joint_descendants
              sym_safe_zip "main_gripper" s1).
  assert (Hr : r = Done [Some 0; Some 1] s1) by (vm_compute; reflexivity).
  destruct (get_component_joints_length sym_link_parent sym_movable_joints
              sym_joint_descendants sym_safe_zip "main_gripper" s1 s1 [Some 0; Some 1] Hr)
    as (_ & names & component & j0 & pairs & Hn & _ & _ & _ & Hlen & Hl & _).
  injection Hn as <-.
  exists [Some 0; Some 1], pairs. split; [exact Hr|]. split; [exact Hlen | exact Hl].
Defined.

(** Witness for X15: the one-box belief, and the same belief with a robot
    state of one value. *)
Lemma from_belief_tracks_every_object_witness :
  (exists instance,
     from_belief sym_belief = inr instance
     /\ is_Some (movable_objects instance !! 0))
  /\ from_belief (mkWorldBelief [sym_red_box 0.3] [0.5%float] true) = inl AssertionError.
Proof.
  split.
  - destruct (from_belief_tracks_every_object sym_belief) as (_ & Hbuilt).
    destruct (Hbuilt eq_refl) as (instance & H & _ & _ & _ & _ & _ & _ & Hidx & _).
    exists instance. split; [exact H|]. apply (Hidx 0 (sym_red_box 0.3)). reflexivity.
  - destruct (from_belief_tracks_every_object
                (mkWorldBelief [sym_red_box 0.3] [0.5%float] true)) as (Hbad & _).
    apply Hbad. discriminate.
Defined.

(** Witness for X16: the shipped perception on the symbolic backend. *)
Lemma from_belief_places_objects_witness :
  exists instance,
    from_belief (dummy_perception (Pose := SymPose)) = inr instance
    /\ movable_objects instance = [2; 3].
Proof.
  destruct (from_belief_places_objects (dummy_perception (Pose := SymPose)))
    as (instance & H & Hm & _); [repeat constructor | reflexivity |].
  exists instance. split; [exact H | exact Hm].
Defined.

(** Witness for X17: a twin instance that tracks no object. *)
Lemma untracked_object_raises_witness :
  process_goal string id sym_planner (sym_red_box 0.4) sym_untracked_main
  = Raised IndexError sym_untracked_main.
Proof.
  apply (untracked_object_raises string id sym_planner (sym_red_box 0.4)
           sym_untracked_main 0 (sym_red_box 0.3));
    [vm_compute; reflexivity | vm_compute; reflexivity | simpl; lia].
Defined.

(** Witness for X19: the one-object run with the pick-and-place
    strategy. *)
Lemma main_loop_collects_one_plan_per_call_witness :
  let s' := final_state (main_loop string id sym_planner (object_states sym_goal) sym_main) in
  stdout s' = [] /\ length (plan_components s') = length (planner_calls s').
Proof.
  intros s'.
  destruct (main_loop_collects_one_plan_per_call string id sym_planner
              (object_states sym_goal) sym_main s') as (H1 & H2 & _);
    [vm_compute; reflexivity|].
  split; [exact H1|].
  change (length (planner_calls sym_main)) with 0 in H2.
  change (length (plan_components sym_main)) with 0 in H2. lia.
Defined.

(** Witness for X20: the same run ends in the AttributeError of the final
    dispatch. *)
Lemma rearrange_never_executes_witness :
  exists s', rearrange string id sym_planner sym_goal sym_main
             = Raised (AttributeError "execute_command") s'
             /\ sim_instance s' = sym_sim.
Proof.
  destruct (rearrange_never_executes string id sym_planner sym_goal sym_main)
    as (e & s' & Hrun & Hsim & Hdone & _).
  destruct (Hdone (final_state (main_loop string id sym_planner (object_states sym_goal)
                                          sym_main))) as (-> & _);
    [vm_compute; reflexivity|].
  exists s'. split; [exact Hrun | exact Hsim].
Defined.

(** Witness for X21: the one-box belief is too short, the shipped
    perception gives the shifted goal. *)
Lemma dummy_get_goal_outcome_witness :
  dummy_get_goal sym_belief = inl IndexError
  /\ exists goal, dummy_get_goal (dummy_perception (Pose := SymPose)) = inr goal
                  /\ map category (object_states goal) = ["red_box"; "blue_box"].
Proof.
  split.
  - destruct (dummy_get_goal_outcome sym_belief) as [H _]. apply H. simpl. lia.
  - destruct (dummy_get_goal_outcome (dummy_perception (Pose := SymPose))) as [_ H].
    destruct (H _ _ _ eq_refl) as (goal & Hg & Hobjs & _).
    exists goal. split; [exact Hg|]. rewrite Hobjs. reflexivity.
Defined.

(** Witness for X22: the first goal object of the shipped scenario. *)
Lemma dummy_goal_always_matches_witness :
  exists i o,
    matching_objects "red_box" (object_states (belief sym_dummy_main)) !! 0 = Some (i, o).
Proof.
  apply (dummy_goal_always_matches string id sym_planner dummy_perception sym_dummy_goal
           sym_dummy_main sym_dummy_main []
           (drop 1 (object_states sym_dummy_goal))
           (mkObjectState create_box
              (multiply2 (Pose_ (Point_x 0.1) unit_euler)
                 (multiply [Pose_ (mkPoint 0 0.1 box_size)%float unit_euler; TABLE_POSE]))
              "red_box"));
    reflexivity.
Defined.

(** Witness for X23: the run without display. *)
Lemma main_never_returns_witness :
  main string id sym_planner true true = inl AssertionError
  /\ exists e s', main string id sym_planner false false = inr (Raised e s').
Proof.
  destruct (main_never_returns string id sym_planner true true) as [H _].
  destruct (main_never_returns string id sym_planner false false) as [_ H'].
  split; [by apply H|].
  destruct (H' eq_refl) as (instance & e & s' & _ & Hrun & _).
  exists e, s'. exact Hrun.
Defined.
